(** * PyOmicron parameters: a shallow embedding of [omicron/parameters.py]

    The module has two entry points:
    - [generate_parameters_files] (the Builder), which turns a configuration
      section, a channel list and keyword overrides into Omicron parameter
      files, and
    - [validate_parameters] (the Validator), a chain of assertions on the
      chunk, segment and overlap durations.

    Conventions of the embedding.
    - Python [int] is [Z]; [%] on [int] is [Z.modulo] (both take the sign of
      the divisor), and a zero divisor raises [ZeroDivisionError].
    - Python [str] is [string]; a [dict] is an association list in iteration
      order (assignment to an existing key keeps its place, a new key goes
      last), which is what decides the order of the lines of a file.
    - Exceptions are values of [exn]; a computation returns a [res].
    - The module-level table [DEFAULTS] is a store that every call of the
      Builder receives and hands back: [DEFAULTS.copy()] copies the outer
      dictionary only, so [params[group]] and [DEFAULTS[group]] are the same
      object.
    - The code is read with Python 2 semantics ([dict.iteritems] exists);
      [from __future__ import division] makes [/] true division. *)

From Stdlib Require Import ZArith List String Ascii Bool Lia DecimalString.
From Stdlib Require DecimalPos DecimalZ.
Import ListNotations.

Open Scope string_scope.
Open Scope Z_scope.

(** ** Python values and exceptions *)

Inductive exn : Type :=
| KeyError (key : string)
| NoOptionError (option : string)
| ValueError (text : string)
| TypeError
| ZeroDivisionError
| AssertionError (message : string).

(** The result of running a piece of the program: a value, an exception, or
    [OutOfFuel] when a loop was cut off by the fuel of the model. *)
Inductive res (A : Type) : Type :=
| Ok (a : A)
| Raise (e : exn)
| OutOfFuel.

Arguments Ok {A} a.
Arguments Raise {A} e.
Arguments OutOfFuel {A}.

Definition res_bind {A B : Type} (r : res A) (k : A -> res B) : res B :=
  match r with
  | Ok a => k a
  | Raise e => Raise e
  | OutOfFuel => OutOfFuel
  end.

Notation "x <- r ;; k" := (res_bind r (fun x => k))
  (at level 61, r at next level, right associativity).

(** ['%d' % z] and [str(z)] for an [int]. *)
Definition str_int (z : Z) : string := NilZero.string_of_int (Z.to_int z).

(** ** The Validator *)

Definition msg_segment : string := "Segment length is greater than chunk length".
Definition msg_overlap : string := "Overlap length is greater than segment length".
Definition msg_zero : string := "Omicron cannot run with zero overlap".
Definition msg_padding : string := "Padding (overlap/2) is non-integer".
Definition msg_half : string := "Overlap is too large, cannot be more than 50%".
Definition msg_tiling (remainder : Z) : string :=
  "Chunk duration doesn't allow an integer number of segments, "
  ++ str_int remainder ++ "s too large".

(** [assert cond, message] followed by the rest of the function. *)
Definition py_assert {A : Type} (cond : bool) (message : string) (k : res A) : res A :=
  if cond then k else Raise (AssertionError message).

(** [a % b] on Python integers. *)
Definition py_mod (a b : Z) : res Z :=
  if b =? 0 then Raise ZeroDivisionError else Ok (a mod b).

Section Validator.

(** The values passed as [frange] and [sampling] when they are given, and the
    rest of the function after [if sampling is None or frange is None: return]
    (lines 203-215).  That tail computes with IEEE doubles ([math.floor],
    [math.log], [math.exp], true division), so it is a parameter here. *)
Variables frange_t sampling_t : Type.
Variable frequency_bound : Z -> Z -> frange_t -> sampling_t -> res unit.

Definition validate_parameters (chunk segment overlap : Z)
  (frange : option frange_t) (sampling : option sampling_t) : res unit :=
  py_assert (segment <=? chunk) msg_segment (
  py_assert (overlap <=? segment) msg_overlap (
  py_assert (negb (overlap =? 0)) msg_zero (
  r2 <- py_mod overlap 2 ;;
  py_assert (r2 =? 0) msg_padding (
  py_assert (segment >=? 2 * overlap) msg_half (
  let dchunk := chunk - overlap in
  let dseg := segment - overlap in
  r <- py_mod dchunk dseg ;;
  py_assert (r =? 0) (msg_tiling r) (
  match sampling, frange with
  | Some s, Some f => frequency_bound chunk overlap f s
  | _, _ => Ok tt
  end)))))).

End Validator.

Arguments validate_parameters {frange_t sampling_t} frequency_bound
  chunk segment overlap frange sampling.

(** The Validator called with the three durations only: no value can be
    passed for [frange] or [sampling]. *)
Definition no_frequency_bound : Z -> Z -> Empty_set -> Empty_set -> res unit :=
  fun _ _ f _ => match f with end.

Definition validate (chunk segment overlap : Z) : res unit :=
  validate_parameters no_frequency_bound chunk segment overlap None None.

(** *** The frequency stage for an integer sampling rate

    Lines 203-215 when [sampling] is an [int].  What the stage computes with
    doubles is a parameter: the test [frange[0] < 1] and the size lines
    204-205 give when it holds ([floor], [log], [ceil], [2 ** _]) or the
    exception they raise; the true division [a / b] of two integers; the
    diagnostic of line 211 ([log], [exp]); and the text of the message.
    The size of the other branch, the two products and the comparison of
    the assertion are integer arithmetic. *)
Section FrequencyStage.

Variables frange_t pyfloat : Type.
Variable low_below_one : frange_t -> bool.
Variable low_psdsize : Z -> frange_t -> res Z.
Variable truediv : Z -> Z -> res pyfloat.
Variable flow_of : Z -> Z -> Z -> res pyfloat.
Variable bound_message : pyfloat -> Z -> pyfloat -> res string.

(** The [if]/[else] of lines 203-207. *)
Definition psdsize_of (frange : frange_t) (sampling : Z) : res Z :=
  if low_below_one frange then low_psdsize sampling frange
  else Ok (2 * sampling).

Definition frequency_check (chunk overlap : Z) (frange : frange_t) (sampling : Z)
  : res unit :=
  psdsize <- psdsize_of frange sampling ;;
  psdlen <- truediv psdsize sampling ;;
  let chunkp := chunk * sampling in
  let overlapp := overlap * sampling in
  flow <- flow_of sampling chunk overlap ;;
  if chunkp - overlapp >=? 2 * psdsize then Ok tt
  else (message <- bound_message psdlen overlap flow ;;
        Raise (AssertionError message)).

End FrequencyStage.

Arguments psdsize_of {frange_t} low_below_one low_psdsize frange sampling.
Arguments frequency_check {frange_t pyfloat} low_below_one low_psdsize truediv
  flow_of bound_message chunk overlap frange sampling.

(** An instance for worked examples: a frequency range of two positive
    integers, whose low end is never below 1, and doubles kept as the
    expressions that give them.  [a / 0] raises [ZeroDivisionError]; the
    logarithm of line 211 raises [ValueError] on a chunk that is not longer
    than the overlap; no overflow is modelled, which is right for
    durations and rates below [2 ^ 700]; the message is its first words,
    without the two numbers. *)
Inductive sample_float : Type :=
| Quotient (a b : Z)
| Flow (sampling chunk overlap : Z).

Definition sample_truediv (a b : Z) : res sample_float :=
  if b =? 0 then Raise ZeroDivisionError else Ok (Quotient a b).

Definition sample_flow (sampling chunk overlap : Z) : res sample_float :=
  if chunk - overlap <=? 0 then Raise (ValueError "math domain error")
  else Ok (Flow sampling chunk overlap).

Definition sample_message (psdlen : sample_float) (overlap : Z) (flow : sample_float)
  : res string :=
  Ok "Chunk duration not large enough to resolve lower-frequency bound".

Definition sample_frequency_check
  : Z -> Z -> positive * positive -> Z -> res unit :=
  frequency_check (fun _ => false) (fun _ _ => Raise (ValueError "math domain error"))
    sample_truediv sample_flow sample_message.

(** ** Strings, paths and slices as the Builder uses them *)

Definition nl : string := String "010"%char "".

(** [s.split(sep)] for a separator of one character. *)
Fixpoint split_on (sep : ascii) (s : string) : list string :=
  match s with
  | EmptyString => [""]
  | String c rest =>
      let parts := split_on sep rest in
      if Ascii.eqb c sep then "" :: parts
      else match parts with
           | [] => [String c ""]
           | p :: ps => String c p :: ps
           end
  end.

(** [s.upper()] on a byte string in the C locale. *)
Definition upper_ascii (c : ascii) : ascii :=
  let n := N_of_ascii c in
  if ((97 <=? n) && (n <=? 122))%N then ascii_of_N (n - 32) else c.

Fixpoint upper (s : string) : string :=
  match s with
  | EmptyString => EmptyString
  | String c rest => String (upper_ascii c) (upper rest)
  end.

(** [''.join(key.split('-')).upper()] *)
Definition okey_of (key : string) : string :=
  upper (String.concat "" (split_on "-"%char key)).

Fixpoint spaces (n : nat) : string :=
  match n with
  | O => ""
  | S n' => String " "%char (spaces n')
  end.

(** ['{0: <width}'.format(s)]: [s] padded on the right with spaces. *)
Definition ljust (width : nat) (s : string) : string :=
  s ++ spaces (width - String.length s).

Fixpoint ends_with_slash (s : string) : bool :=
  match s with
  | EmptyString => false
  | String c EmptyString => Ascii.eqb c "/"%char
  | String _ rest => ends_with_slash rest
  end.

(** [os.path.join(a, b)] of [posixpath]. *)
Definition path_join (a b : string) : string :=
  if String.prefix "/" b then b
  else if (a =? "")%string || ends_with_slash a then a ++ b
  else a ++ "/" ++ b.

(** [l[a:b]] with Python's reading of negative and oversized bounds. *)
Definition py_slice {A : Type} (l : list A) (a b : Z) : list A :=
  let n := Z.of_nat (List.length l) in
  let clamp x := if x <? 0 then Z.max 0 (x + n) else Z.min x n in
  let a' := clamp a in
  let b' := clamp b in
  firstn (Z.to_nat (b' - a')) (skipn (Z.to_nat a') l).

(** ** Dictionaries *)

Section Dict.

Variable V : Type.

Definition dict : Type := list (string * V).

Fixpoint dict_get (k : string) (d : dict) : option V :=
  match d with
  | [] => None
  | (k', v) :: d' => if (k' =? k)%string then Some v else dict_get k d'
  end.

Definition dict_has (k : string) (d : dict) : bool :=
  match dict_get k d with
  | Some _ => true
  | None => false
  end.

(** [d[k] = v] *)
Fixpoint dict_set (k : string) (v : V) (d : dict) : dict :=
  match d with
  | [] => [(k, v)]
  | (k', v') :: d' =>
      if (k' =? k)%string then (k, v) :: d' else (k', v') :: dict_set k v d'
  end.

(** [d.pop(k, None)] with the value dropped; also what [d.pop(k)] leaves. *)
Definition dict_del (k : string) (d : dict) : dict :=
  filter (fun kv => negb (fst kv =? k)%string) d.

(** [d.pop(k)] *)
Definition dict_pop (k : string) (d : dict) : dict * res V :=
  match dict_get k d with
  | Some v => (dict_del k d, Ok v)
  | None => (d, Raise (KeyError k))
  end.

(** [d.setdefault(k, v)] *)
Definition dict_setdefault (k : string) (v : V) (d : dict) : dict :=
  if dict_has k d then d else dict_set k v d.

End Dict.

Arguments dict_get {V} k d.
Arguments dict_has {V} k d.
Arguments dict_set {V} k v d.
Arguments dict_del {V} k d.
Arguments dict_pop {V} k d.
Arguments dict_setdefault {V} k v d.

(** ** The Builder *)

(** The values a parameter can hold: configuration values are strings, the
    defaults hold an [int] and a [float], keyword arguments can be anything.
    A [float] is kept as its [str()] text, the only thing the Builder does
    with one. *)
Inductive value : Type :=
| VNone
| VStr (s : string)
| VInt (z : Z)
| VFloat (text : string)
| VList (items : list string)
| VTuple (items : list string).

Inductive group : Type := PARAMETER | OUTPUT | DATA.

Definition group_name (g : group) : string :=
  match g with
  | PARAMETER => "PARAMETER"
  | OUTPUT => "OUTPUT"
  | DATA => "DATA"
  end.

(** The dictionary of dictionaries [params]; since [DEFAULTS.copy()] is
    shallow, also the state of the module-level [DEFAULTS]. *)
Record table : Type := Table {
  parameter_group : dict value;
  output_group : dict value;
  data_group : dict value
}.

Definition get_group (g : group) (t : table) : dict value :=
  match g with
  | PARAMETER => parameter_group t
  | OUTPUT => output_group t
  | DATA => data_group t
  end.

Definition with_group (g : group) (f : dict value -> dict value) (t : table) : table :=
  match g with
  | PARAMETER => Table (f (parameter_group t)) (output_group t) (data_group t)
  | OUTPUT => Table (parameter_group t) (f (output_group t)) (data_group t)
  | DATA => Table (parameter_group t) (output_group t) (f (data_group t))
  end.

(** The table as the module defines it (lines 33-45); [1e7] prints as
    [10000000.0]. *)
Definition DEFAULTS : table := {|
  parameter_group := [("CLUSTERING", VStr "TIME")];
  output_group := [("PRODUCTS", VStr "triggers"); ("VERBOSITY", VInt 2);
                   ("FORMAT", VStr "rootxml"); ("NTRIGGERMAX", VFloat "10000000.0")];
  data_group := []
|}.

Definition UNUSED_PARAMS : list string :=
  ["state-flag"; "frametype"; "state-channel"; "state-frametype"].

Definition OMICRON_PARAM_MAP (key : string) : option (group * string) :=
  if (key =? "sample-frequency")%string then Some (DATA, "SAMPLEFREQUENCY") else None.

(** [val in [None, 'None', 'none', '']] *)
Definition is_unset (val : value) : bool :=
  match val with
  | VNone => true
  | VStr s => (s =? "None")%string || (s =? "none")%string || (s =? "")%string
  | _ => false
  end.

Definition is_sequence (val : value) : bool :=
  match val with
  | VList _ | VTuple _ => true
  | _ => false
  end.

(** A configuration section: option names and their raw texts. *)
Definition section : Type := dict string.

(** A parameter file of the result: its path and the channels in it. *)
Definition parfile : Type := (string * list string)%type.

(** What one call of the Builder leaves behind: the state of [DEFAULTS], the
    files it wrote (path and content, in the order written) and what it
    returned or raised. *)
Record outcome : Type := Outcome {
  defaults_after : table;
  written : list (string * string);
  returned : res (list parfile)
}.

Section Builder.

(** Two builtins of Python are parameters of the model:
    [float_text raw] is ['%s' % float(raw)], or [None] when [float(raw)]
    raises [ValueError]; [py_repr s] is [repr(s)] of a string. *)
Variable float_text : string -> option string.
Variable py_repr : string -> string.

(** [str(val)], as [print] and ['%s'] apply it. *)
Definition py_str (val : value) : string :=
  match val with
  | VNone => "None"
  | VStr s => s
  | VInt z => str_int z
  | VFloat text => text
  | VList items => "[" ++ String.concat ", " (map py_repr items) ++ "]"
  | VTuple [item] => "(" ++ py_repr item ++ ",)"
  | VTuple items => "(" ++ String.concat ", " (map py_repr items) ++ ")"
  end.

(** [config.getfloat(section, opt)], as text. *)
Definition getfloat (config : section) (opt : string) : res string :=
  match dict_get opt config with
  | None => Raise (NoOptionError opt)
  | Some raw =>
      match float_text raw with
      | Some text => Ok text
      | None => Raise (ValueError raw)
      end
  end.

(** One round of the loop of lines 99-111. [remove_option] returns [False]
    for an option that is not there, so the [try] never catches. *)
Definition reformat_range (names : string * string * string) (config : section)
  : res section :=
  let '(range_, low_, high_) := names in
  config' <-
    (if negb (dict_has range_ config) && dict_has low_ config then
       low <- getfloat config low_ ;;
       high <- getfloat config high_ ;;
       Ok (dict_set range_ (low ++ " " ++ high) config)
     else Ok config) ;;
  Ok (dict_del high_ (dict_del low_ config')).

Definition reformat_lcf (config : section) : res section :=
  config' <- reformat_range ("frequency-range", "flow", "fhigh") config ;;
  reformat_range ("q-range", "qlow", "qhigh") config'.

(** The body of the loop of lines 125-136 for one key of [d] and its value. *)
Definition set_param (params : table) (item : string * value) : table :=
  let '(key, val) := item in
  match OMICRON_PARAM_MAP key with
  | None =>
      let okey := okey_of key in
      if is_unset val then with_group PARAMETER (dict_del okey) params
      else with_group PARAMETER (dict_set okey val) params
  | Some (g, attr) => with_group g (dict_set attr val) params
  end.

Definition set_params (d : dict value) (params : table) : table :=
  fold_left set_param d params.

(** Lines 141-147 on [params['PARAMETER']]; a [KeyError] leaves the
    dictionary as the statements before it made it. *)
Definition restructure_timing (p : dict value) : dict value * res unit :=
  match dict_pop "CHUNKDURATION" p with
  | (p0, Ok chunk) =>
      let p1 := dict_set "PSDLENGTH" chunk p0 in
      match dict_pop "SEGMENTDURATION" p1 with
      | (p2, Ok segment) =>
          match dict_pop "OVERLAPDURATION" p2 with
          | (p3, Ok overlap) =>
              let p4 := dict_set "TIMING" (VStr (py_str segment ++ " " ++ py_str overlap)) p3 in
              (dict_setdefault "FFTPLAN" (VStr "FFTW_ESTIMATE") p4, Ok tt)
          | (p3, Raise e) => (p3, Raise e)
          | (p3, OutOfFuel) => (p3, OutOfFuel)
          end
      | (p2, Raise e) => (p2, Raise e)
      | (p2, OutOfFuel) => (p2, OutOfFuel)
      end
  | (p0, Raise e) => (p0, Raise e)
  | (p0, OutOfFuel) => (p0, OutOfFuel)
  end.

(** [omicron_version >= 'v2r2'] on strings. *)
Definition version_ge_v2r2 (omicron_version : string) : bool :=
  String.leb "v2r2" omicron_version.

Definition restructure (omicron_version : string) (params : table) : table * res unit :=
  if version_ge_v2r2 omicron_version then
    let (p, r) := restructure_timing (parameter_group params) in
    (with_group PARAMETER (fun _ => p) params, r)
  else (params, Ok tt).

(** What [print(group, key, val, file=f, sep=' ')] writes, names padded. *)
Definition attr_line (g : group) (key : string) (val : value) : string :=
  ljust 10 (group_name g) ++ " " ++ ljust 16 key ++ " " ++ py_str val ++ nl.

(** Lines 158-161 for one attribute: [' '.join(val, (list, tuple))] passes
    two arguments to [str.join], which takes one. *)
Definition render_attr (g : group) (item : string * value) : res string :=
  let '(key, val) := item in
  if is_sequence val then Raise TypeError
  else Ok (attr_line g key val).

(** The text written for the attributes of one group and the blank line
    after them, with what stopped the writing, if anything did. *)
Fixpoint render_group (g : group) (d : dict value) : string * res unit :=
  match d with
  | [] => (nl, Ok tt)
  | item :: d' =>
      match render_attr g item with
      | Ok line => let (text, r) := render_group g d' in (line ++ text, r)
      | Raise e => ("", Raise e)
      | OutOfFuel => ("", OutOfFuel)
      end
  end.

Fixpoint render_groups (gs : list group) (params : table) : string * res unit :=
  match gs with
  | [] => ("", Ok tt)
  | g :: gs' =>
      match render_group g (get_group g params) with
      | (text, Ok _) => let (text', r) := render_groups gs' params in (text ++ text', r)
      | (text, r) => (text, r)
      end
  end.

Definition channel_line (c : string) : string :=
  ljust 10 "DATA" ++ " " ++ ljust 16 "CHANNELS" ++ " " ++ c ++ nl.

(** The content of one parameter file (lines 155-165); on an exception the
    file keeps what was written before it. *)
Definition render_file (params : table) (channels : list string) : string * res unit :=
  match render_groups [PARAMETER; OUTPUT; DATA] params with
  | (text, Ok _) => (text ++ String.concat "" (map channel_line channels), Ok tt)
  | (text, r) => (text, r)
  end.

(** The loop of lines 150-167, from index [i]. *)
Fixpoint write_files (fuel : nat) (params : table) (pardir : string)
  (channellist : list string) (channellimit : Z) (i : Z)
  : list (string * string) * res (list parfile) :=
  match fuel with
  | O => ([], OutOfFuel)
  | S fuel' =>
      if i * channellimit <? Z.of_nat (List.length channellist) then
        let channels := py_slice channellist (i * channellimit) ((i + 1) * channellimit) in
        let pfile := path_join pardir ("parameters_" ++ str_int i ++ ".txt") in
        match render_file params channels with
        | (text, Ok _) =>
            let (files, r) :=
              write_files fuel' params pardir channellist channellimit (i + 1) in
            ((pfile, text) :: files, parfiles <- r ;; Ok ((pfile, channels) :: parfiles))
        | (text, Raise e) => ([(pfile, text)], Raise e)
        | (text, OutOfFuel) => ([(pfile, text)], OutOfFuel)
        end
      else ([], Ok [])
  end.

(** Lines 98-136: the configuration is reformatted and read, and its
    parameters and the keyword arguments are written into [params], which
    is [DEFAULTS] itself.  Returns the table and the channel list. *)
Definition gather_params (config : section) (cachefile trigdir : string)
  (kwargs : dict value) (defaults : table) : table * res (list string) :=
  match reformat_lcf config with
  | Ok config' =>
      let params := defaults in
      let cpparams := config' in
      match dict_pop "channels" cpparams with
      | (cpparams, Ok channels) =>
          let channellist := split_on "010"%char channels in
          let cpparams := fold_left (fun d key => dict_del key d) UNUSED_PARAMS cpparams in
          let params := with_group DATA (dict_set "FFL" (VStr cachefile)) params in
          let params := with_group OUTPUT (dict_set "DIRECTORY" (VStr trigdir)) params in
          let params := set_params (map (fun kv => (fst kv, VStr (snd kv))) cpparams) params in
          let params := set_params kwargs params in
          (params, Ok channellist)
      | (_, Raise e) => (defaults, Raise e)
      | (_, OutOfFuel) => (defaults, OutOfFuel)
      end
  | Raise e => (defaults, Raise e)
  | OutOfFuel => (defaults, OutOfFuel)
  end.

(** The Builder (lines 92-168) run on the state [defaults] of [DEFAULTS].
    [omicron_version] is given as a string; creating the two directories
    writes no file and is left out. *)
Definition generate_parameters_files (fuel : nat) (config : section)
  (cachefile rundir : string) (channellimit : Z) (omicron_version : string)
  (kwargs : dict value) (defaults : table) : outcome :=
  let pardir := path_join rundir "parameters" in
  let trigdir := path_join rundir "triggers" in
  match gather_params config cachefile trigdir kwargs defaults with
  | (params, Ok channellist) =>
      match restructure omicron_version params with
      | (params, Ok _) =>
          let (files, r) := write_files fuel params pardir channellist channellimit 0 in
          Outcome params files r
      | (params, Raise e) => Outcome params [] (Raise e)
      | (params, OutOfFuel) => Outcome params [] OutOfFuel
      end
  | (params, Raise e) => Outcome params [] (Raise e)
  | (params, OutOfFuel) => Outcome params [] OutOfFuel
  end.

End Builder.

(** A small instance of the two builtins for worked examples: [float_text]
    reads a plain run of digits as Python prints the float of that integer
    (for values below [1e16]), and [py_repr] quotes a string that holds no
    quote, backslash or control character. *)
Fixpoint all_digits (s : string) : bool :=
  match s with
  | EmptyString => true
  | String c rest =>
      ((48 <=? N_of_ascii c) && (N_of_ascii c <=? 57))%N && all_digits rest
  end.

Definition digits_float_text (raw : string) : option string :=
  if all_digits raw && negb (raw =? "")%string && (String.length raw <=? 15)%nat
  then match NilZero.int_of_string raw with
       | Some i => Some (str_int (Z.of_int i) ++ ".0")
       | None => None
       end
  else None.

Definition plain_repr (s : string) : string := "'" ++ s ++ "'".

(** * Notions used in the statements *)

(** ** The Validator as the specification words it *)

(** Checks 1 to 5 of the specification. *)
Definition five_checks (chunk segment overlap : Z) : Prop :=
  segment <= chunk /\ overlap <= segment /\ overlap <> 0 /\ overlap mod 2 = 0
  /\ segment >= 2 * overlap.

(** The six checks in the order of the specification, each with the reason
    reported when it fails; the modulus is the total [Z.modulo]. *)
Definition checks_in_order (chunk segment overlap : Z) : list (bool * string) :=
  [ (segment <=? chunk, msg_segment);
    (overlap <=? segment, msg_overlap);
    (negb (overlap =? 0), msg_zero);
    (overlap mod 2 =? 0, msg_padding);
    (segment >=? 2 * overlap, msg_half);
    ((chunk - overlap) mod (segment - overlap) =? 0,
     msg_tiling ((chunk - overlap) mod (segment - overlap))) ].

(** The specification's Validator without frequency arguments: the first
    failing check gives the reason, none failing is success. *)
Definition validate_spec (chunk segment overlap : Z) : res unit :=
  match find (fun check => negb (fst check)) (checks_in_order chunk segment overlap) with
  | Some (_, reason) => Raise (AssertionError reason)
  | None => Ok tt
  end.

(** ** Channel subsets *)

Definition ceil_div (n l : Z) : Z := (n + l - 1) / l.

(** [os.path.join(pardir, 'parameters_%d.txt' % i)] *)
Definition parameters_path (pardir : string) (i : Z) : string :=
  path_join pardir ("parameters_" ++ str_int i ++ ".txt").

(** The [j]-th run of [channellimit] consecutive elements of the list. *)
Definition chunk_at (channellist : list string) (channellimit : Z) (j : nat) : list string :=
  firstn (Z.to_nat channellimit) (skipn (j * Z.to_nat channellimit) channellist).

(** What the specification says of the pairs returned for [channellist] and
    [channellimit]: their number; their subsets in order make up the list;
    the [j]-th pair is file [j] and the [j]-th chunk, not empty and not
    longer than the limit; element [k] of subset [j] is position
    [j * channellimit + k] of the list, and no position comes up twice. *)
Definition partitions (pardir : string) (channellist : list string)
  (channellimit : Z) (parfiles : list parfile) : Prop :=
  Z.of_nat (List.length parfiles)
  = ceil_div (Z.of_nat (List.length channellist)) channellimit
  /\ List.concat (map snd parfiles) = channellist
  /\ (forall j pfile channels,
        nth_error parfiles j = Some (pfile, channels) ->
        pfile = parameters_path pardir (Z.of_nat j)
        /\ channels = chunk_at channellist channellimit j
        /\ (0 < List.length channels <= Z.to_nat channellimit)%nat)
  /\ (forall j j' pfile pfile' channels channels' k k',
        nth_error parfiles j = Some (pfile, channels) ->
        nth_error parfiles j' = Some (pfile', channels') ->
        (k < List.length channels)%nat -> (k' < List.length channels')%nat ->
        nth_error channels k = nth_error channellist (j * Z.to_nat channellimit + k)
        /\ ((j * Z.to_nat channellimit + k = j' * Z.to_nat channellimit + k')%nat ->
            j = j' /\ k = k')).

(** ** Tables and files *)

(** No value of the group, or of the table, is a [list] or a [tuple]. *)
Definition all_scalar_group (d : dict value) : bool :=
  forallb (fun item => negb (is_sequence (snd item))) d.

Definition all_scalar (params : table) : bool :=
  forallb (fun g => all_scalar_group (get_group g params)) [PARAMETER; OUTPUT; DATA].

(** [line] is written somewhere in [text]. *)
Definition has_line (text line : string) : Prop :=
  exists before after, text = before ++ line ++ after.

(** The group and attribute a key of the configuration or of the keyword
    arguments is written to (lines 126-136). *)
Definition target_of (key : string) : group * string :=
  match OMICRON_PARAM_MAP key with
  | Some target => target
  | None => (PARAMETER, okey_of key)
  end.

Definition lookup (params : table) (target : group * string) : option value :=
  dict_get (snd target) (get_group (fst target) params).

(** The attributes lines 141-145 remove or assign for versions from v2r2. *)
Definition restructured : list (group * string) :=
  [ (PARAMETER, "CHUNKDURATION"); (PARAMETER, "SEGMENTDURATION");
    (PARAMETER, "OVERLAPDURATION"); (PARAMETER, "PSDLENGTH"); (PARAMETER, "TIMING") ].

Definition timing_keys : list string :=
  ["CHUNKDURATION"; "SEGMENTDURATION"; "OVERLAPDURATION"].

(** The first of the three keys that [params['PARAMETER']] does not hold. *)
Definition first_missing (p : dict value) : option string :=
  find (fun key => negb (dict_has key p)) timing_keys.

(** The combined, low and high option names of the loop of line 99. *)
Definition ranges : list (string * string * string) :=
  [("frequency-range", "flow", "fhigh"); ("q-range", "qlow", "qhigh")].

(** ** Worked inputs *)

Definition sample_builder : nat -> section -> string -> string -> Z -> string ->
  dict value -> table -> outcome :=
  generate_parameters_files digits_float_text plain_repr.

Definition three_channels : string := "H1:A" ++ nl ++ "H1:B" ++ nl ++ "H1:C".

Definition timed_config : section :=
  [ ("channels", three_channels); ("chunkduration", "64");
    ("segmentduration", "8"); ("overlapduration", "2") ].

(** ** Characters, names and writes *)

Definition is_lower (c : ascii) : bool :=
  ((97 <=? N_of_ascii c) && (N_of_ascii c <=? 122))%N.

Definition not_hyphen (c : ascii) : bool := negb (Ascii.eqb c "-"%char).

(** Every group has one entry at most under each attribute name. *)
Definition unique_keys (params : table) : Prop :=
  forall g, NoDup (map fst (get_group g params)).

(** What an item of the configuration or of the keyword arguments leaves
    under its attribute: its value, or nothing for an unset token outside
    the remap table. *)
Definition written_value (key : string) (val : value) : option value :=
  match OMICRON_PARAM_MAP key with
  | Some _ => Some val
  | None => if is_unset val then None else Some val
  end.

(** * Facts about the embedding *)

(** ** Slices *)

Lemma py_slice_chunk :
  forall (A : Type) (l : list A) (i L : Z),
    0 <= i -> 0 < L -> i * L < Z.of_nat (List.length l) ->
    py_slice l (i * L) ((i + 1) * L)
    = firstn (Z.to_nat L) (skipn (Z.to_nat (i * L)) l).
Proof.
  intros A l i L Hi HL Hlt. unfold py_slice.
  assert (H0 : 0 <= i * L) by nia.
  destruct (Z.ltb_spec (i * L) 0) as [Hneg|_]; [lia|].
  destruct (Z.ltb_spec ((i + 1) * L) 0) as [Hneg|_]; [nia|].
  rewrite (Z.min_l (i * L)) by lia.
  set (n := Z.of_nat (List.length l)) in *.
  destruct (Z.le_ge_cases ((i + 1) * L) n) as [Hle|Hge].
  - rewrite Z.min_l by lia. f_equal. f_equal. lia.
  - rewrite Z.min_r by lia.
    rewrite !firstn_all2; try reflexivity; rewrite length_skipn; subst n; lia.
Qed.

Section WriteLoop.

Variable py_repr : string -> string.
Variable params : table.
Variable pardir : string.
Variable channellist : list string.
Variable channellimit : Z.
Hypothesis limit_positive : 0 < channellimit.

Let N : Z := Z.of_nat (List.length channellist).

Lemma write_files_from :
  forall (fuel : nat) (i : Z) files parfiles,
    0 <= i ->
    write_files py_repr fuel params pardir channellist channellimit i = (files, Ok parfiles) ->
    Z.of_nat (List.length parfiles) = Z.max 0 (ceil_div (N - i * channellimit) channellimit)
    /\ List.concat (map snd parfiles) = skipn (Z.to_nat (i * channellimit)) channellist
    /\ map fst files = map fst parfiles
    /\ forall j pfile channels,
         nth_error parfiles j = Some (pfile, channels) ->
         pfile = parameters_path pardir (i + Z.of_nat j)
         /\ channels = chunk_at channellist channellimit (Z.to_nat i + j)
         /\ channels <> [].
Proof.
  induction fuel as [|fuel IH]; intros i files parfiles Hi Hrun; cbn [write_files] in Hrun.
  - discriminate.
  - fold N in Hrun.
    destruct (Z.ltb_spec (i * channellimit) N) as [Hlt|Hge].
    + destruct (render_file py_repr params _) as [text [[]| e |]] eqn:Hrender;
        try discriminate.
      destruct (write_files py_repr fuel params pardir channellist channellimit (i + 1))
        as [files' r'] eqn:Hrest.
      destruct r' as [parfiles'| e |]; cbn [res_bind] in Hrun; try discriminate.
      injection Hrun as <- <-.
      destruct (IH (i + 1) files' parfiles' ltac:(lia) Hrest) as (Hlen & Hcat & Hf & Hnth).
      assert (Hslice : py_slice channellist (i * channellimit) ((i + 1) * channellimit)
                       = firstn (Z.to_nat channellimit)
                           (skipn (Z.to_nat (i * channellimit)) channellist))
        by (apply py_slice_chunk; [lia | lia | exact Hlt]).
      rewrite Hslice.
      repeat split.
      * cbn [List.length]. rewrite Nat2Z.inj_succ, Hlen. unfold ceil_div.
        replace (N - (i + 1) * channellimit + channellimit - 1)
          with ((N - i * channellimit + channellimit - 1) + (-1) * channellimit) by lia.
        rewrite Z.div_add by lia.
        assert (1 <= (N - i * channellimit + channellimit - 1) / channellimit)
          by (apply Z.div_le_lower_bound; lia).
        lia.
      * cbn [map snd List.concat]. rewrite Hcat.
        replace (Z.to_nat ((i + 1) * channellimit))
          with (Z.to_nat channellimit + Z.to_nat (i * channellimit))%nat by nia.
        rewrite <- skipn_skipn. apply firstn_skipn.
      * cbn [map fst]. f_equal. exact Hf.
      * destruct j as [|j]; cbn [nth_error] in H.
        -- injection H as <- <-. unfold parameters_path. now rewrite Z.add_0_r.
        -- destruct (Hnth j pfile channels H) as (-> & _ & _).
           now replace (i + 1 + Z.of_nat j) with (i + Z.of_nat (S j)) by lia.
      * destruct j as [|j]; cbn [nth_error] in H.
        -- injection H as <- <-. unfold chunk_at.
           now replace ((Z.to_nat i + 0) * Z.to_nat channellimit)%nat
             with (Z.to_nat (i * channellimit)) by nia.
        -- destruct (Hnth j pfile channels H) as (_ & -> & _).
           now replace (Z.to_nat (i + 1) + j)%nat with (Z.to_nat i + S j)%nat by lia.
      * destruct j as [|j]; cbn [nth_error] in H.
        -- injection H as <- <-. intros Hnil.
           apply (f_equal (@List.length string)) in Hnil.
           rewrite length_firstn, length_skipn in Hnil. cbn in Hnil. subst N. lia.
        -- destruct (Hnth j pfile channels H) as (_ & _ & Hne). exact Hne.
    + injection Hrun as <- <-.
      repeat split.
      * cbn [List.length]. unfold ceil_div.
        assert ((N - i * channellimit + channellimit - 1) / channellimit <= 0).
        { apply Z.lt_succ_r. apply Z.div_lt_upper_bound; lia. }
        lia.
      * cbn. symmetry. apply skipn_all2. subst N. lia.
      * destruct j; discriminate.
      * destruct j; discriminate.
      * destruct j; discriminate.
Qed.

End WriteLoop.

(** ** Dictionary facts *)

Section DictFacts.

Variable V : Type.
Implicit Types (d : dict V) (k : string) (v : V).

Lemma dict_get_set_same : forall d k v, dict_get k (dict_set k v d) = Some v.
Proof.
  induction d as [|[k' v'] d IH]; intros k v; cbn.
  - now rewrite String.eqb_refl.
  - destruct (String.eqb_spec k' k) as [->|Hne]; cbn.
    + now rewrite String.eqb_refl.
    + destruct (String.eqb_spec k' k); [contradiction | apply IH].
Qed.

Lemma dict_get_set_other :
  forall d k k' v, k' <> k -> dict_get k' (dict_set k v d) = dict_get k' d.
Proof.
  induction d as [|[k0 v0] d IH]; intros k k' v Hne; cbn.
  - destruct (String.eqb_spec k k'); [congruence | reflexivity].
  - destruct (String.eqb_spec k0 k) as [->|Hk]; cbn.
    + destruct (String.eqb_spec k k'); [congruence | reflexivity].
    + destruct (String.eqb_spec k0 k'); [reflexivity | now apply IH].
Qed.

Lemma dict_get_del_same : forall d k, dict_get k (dict_del k d) = None.
Proof.
  induction d as [|[k' v'] d IH]; intros k; cbn; [reflexivity|].
  destruct (String.eqb_spec k' k) as [->|Hne]; cbn; [apply IH|].
  destruct (String.eqb_spec k' k); [contradiction | apply IH].
Qed.

Lemma dict_get_del_other :
  forall d k k', k' <> k -> dict_get k' (dict_del k d) = dict_get k' d.
Proof.
  induction d as [|[k0 v0] d IH]; intros k k' Hne; cbn; [reflexivity|].
  destruct (String.eqb_spec k0 k) as [->|Hk]; cbn.
  - destruct (String.eqb_spec k k'); [congruence | now apply IH].
  - destruct (String.eqb_spec k0 k'); [reflexivity | now apply IH].
Qed.

Lemma dict_get_In : forall d k v, dict_get k d = Some v -> In (k, v) d.
Proof.
  induction d as [|[k' v'] d IH]; intros k v; cbn; [discriminate|].
  destruct (String.eqb_spec k' k) as [->|Hne].
  - intros [= ->]. now left.
  - intros H. right. now apply IH.
Qed.

End DictFacts.

Arguments dict_get_set_same {V} d k v.
Arguments dict_get_set_other {V} d k k' v _.
Arguments dict_get_del_same {V} d k.
Arguments dict_get_del_other {V} d k k' _.
Arguments dict_get_In {V} d k v _.

(** ** Rendering *)

Section Rendering.

Variable py_repr : string -> string.

Lemma render_group_scalar :
  forall g d, all_scalar_group d = true ->
    exists text, render_group py_repr g d = (text, Ok tt).
Proof.
  intros g d. induction d as [|[key val] d IH]; cbn; intros H.
  - now eexists.
  - apply andb_prop in H as [Hval Hd]. destruct (IH Hd) as [text ->].
    destruct (is_sequence val); [discriminate|]. now eexists.
Qed.

Lemma render_group_sequence :
  forall g d, all_scalar_group d = false ->
    exists text, render_group py_repr g d = (text, Raise TypeError).
Proof.
  intros g d. induction d as [|[key val] d IH]; cbn; intros H; [discriminate|].
  destruct (is_sequence val); cbn in H |- *.
  - now eexists.
  - destruct (IH H) as [text ->]. now eexists.
Qed.

Lemma render_groups_scalar :
  forall params gs,
    forallb (fun g => all_scalar_group (get_group g params)) gs = true ->
    exists text, render_groups py_repr gs params = (text, Ok tt).
Proof.
  intros params gs. induction gs as [|g gs IH]; cbn; intros H.
  - now eexists.
  - apply andb_prop in H as [Hg Hgs].
    destruct (render_group_scalar g _ Hg) as [text ->].
    destruct (IH Hgs) as [text' ->]. now eexists.
Qed.

Lemma render_groups_sequence :
  forall params gs,
    forallb (fun g => all_scalar_group (get_group g params)) gs = false ->
    exists text, render_groups py_repr gs params = (text, Raise TypeError).
Proof.
  intros params gs. induction gs as [|g gs IH]; cbn; intros H; [discriminate|].
  destruct (all_scalar_group (get_group g params)) eqn:Hg; cbn in H.
  - destruct (render_group_scalar g _ Hg) as [text ->].
    destruct (IH H) as [text' ->]. now eexists.
  - destruct (render_group_sequence g _ Hg) as [text ->]. now eexists.
Qed.

Lemma render_file_scalar :
  forall params channels, all_scalar params = true ->
    exists text, render_file py_repr params channels = (text, Ok tt).
Proof.
  intros params channels H. unfold render_file.
  destruct (render_groups_scalar params _ H) as [text ->]. now eexists.
Qed.

Lemma render_file_sequence :
  forall params channels, all_scalar params = false ->
    exists text, render_file py_repr params channels = (text, Raise TypeError).
Proof.
  intros params channels H. unfold render_file.
  destruct (render_groups_sequence params _ H) as [text ->]. now eexists.
Qed.

Lemma write_files_total :
  forall params pardir channellist channellimit,
    0 < channellimit -> all_scalar params = true ->
    forall (fuel : nat) (i : Z),
      0 <= i ->
      Z.max 0 (Z.of_nat (List.length channellist) - i * channellimit) < Z.of_nat fuel ->
      exists files parfiles,
        write_files py_repr fuel params pardir channellist channellimit i
        = (files, Ok parfiles).
Proof.
  intros params pardir channellist channellimit HL Hs.
  induction fuel as [|fuel IH]; intros i Hi Hfuel; [lia|].
  cbn [write_files].
  destruct (Z.ltb_spec (i * channellimit) (Z.of_nat (List.length channellist))) as [Hlt|Hge].
  - destruct (render_file_scalar params
                (py_slice channellist (i * channellimit) ((i + 1) * channellimit)) Hs)
      as [text ->].
    destruct (IH (i + 1)) as (files & parfiles & ->); [lia | lia |].
    cbn. now do 2 eexists.
  - now do 2 eexists.
Qed.

End Rendering.

(** ** Reading the configuration *)

Section Gathering.

Variable float_text : string -> option string.

Lemma reformat_range_get_other :
  forall range_ low_ high_ config config' k,
    reformat_range float_text (range_, low_, high_) config = Ok config' ->
    k <> range_ -> k <> low_ -> k <> high_ ->
    dict_get k config' = dict_get k config.
Proof.
  intros range_ low_ high_ config config' k Hrun Hr Hl Hh.
  unfold reformat_range in Hrun.
  destruct (negb (dict_has range_ config) && dict_has low_ config).
  - destruct (getfloat float_text config low_) as [low| |]; try discriminate.
    destruct (getfloat float_text config high_) as [high| |]; try discriminate.
    cbn in Hrun. injection Hrun as <-.
    now rewrite !dict_get_del_other, dict_get_set_other.
  - cbn in Hrun. injection Hrun as <-.
    now rewrite !dict_get_del_other.
Qed.

Lemma reformat_lcf_channels :
  forall config config',
    reformat_lcf float_text config = Ok config' ->
    dict_get "channels" config' = dict_get "channels" config.
Proof.
  intros config config' Hrun. unfold reformat_lcf in Hrun.
  destruct (reformat_range float_text ("frequency-range", "flow", "fhigh") config)
    as [config1| |] eqn:H1; try discriminate.
  cbn [res_bind] in Hrun.
  rewrite (reformat_range_get_other _ _ _ _ _ "channels" Hrun) by discriminate.
  now rewrite (reformat_range_get_other _ _ _ _ _ "channels" H1) by discriminate.
Qed.

Lemma gather_params_channels :
  forall config cachefile trigdir kwargs defaults params channellist,
    gather_params float_text config cachefile trigdir kwargs defaults
    = (params, Ok channellist) ->
    exists channels,
      dict_get "channels" config = Some channels
      /\ channellist = split_on "010"%char channels.
Proof.
  intros config cachefile trigdir kwargs defaults params channellist Hrun.
  unfold gather_params in Hrun.
  destruct (reformat_lcf float_text config) as [config'| |] eqn:Hlcf; try discriminate.
  apply reformat_lcf_channels in Hlcf.
  unfold dict_pop in Hrun.
  destruct (dict_get "channels" config') as [channels|]; try discriminate.
  injection Hrun as _ <-. now exists channels.
Qed.

End Gathering.

(** ** The channel partition *)

Lemma write_files_partitions :
  forall py_repr params pardir channellist channellimit fuel files parfiles,
    0 < channellimit ->
    write_files py_repr fuel params pardir channellist channellimit 0 = (files, Ok parfiles) ->
    partitions pardir channellist channellimit parfiles.
Proof.
  intros py_repr params pardir channellist channellimit fuel files parfiles HL Hrun.
  destruct (write_files_from py_repr params pardir channellist channellimit HL
              fuel 0 files parfiles (Z.le_refl 0) Hrun) as (Hlen & Hcat & _ & Hnth).
  assert (Hchunk : forall j pfile channels,
             nth_error parfiles j = Some (pfile, channels) ->
             pfile = parameters_path pardir (Z.of_nat j)
             /\ channels = chunk_at channellist channellimit j
             /\ (0 < List.length channels <= Z.to_nat channellimit)%nat).
  { intros j pfile channels Hj. destruct (Hnth j pfile channels Hj) as (Hp & Hc & Hne).
    cbn in Hp, Hc. repeat split; try assumption.
    - destruct channels; [contradiction | cbn; lia].
    - rewrite Hc. unfold chunk_at. rewrite length_firstn. lia. }
  split; [|split; [|split]].
  - rewrite Hlen. rewrite Z.mul_0_l, Z.sub_0_r. apply Z.max_r.
    unfold ceil_div. apply Z.div_pos; lia.
  - exact Hcat.
  - exact Hchunk.
  - intros j j' pfile pfile' channels channels' k k' Hj Hj' Hk Hk'.
    destruct (Hchunk j pfile channels Hj) as (_ & Hc & Hb).
    destruct (Hchunk j' pfile' channels' Hj') as (_ & _ & Hb').
    split.
    + rewrite Hc at 1. unfold chunk_at.
      rewrite nth_error_firstn, nth_error_skipn.
      destruct (Nat.ltb_spec k (Z.to_nat channellimit)); [reflexivity | lia].
    + intros Heq.
      assert (Hjj : j = j').
      { destruct (Nat.lt_trichotomy j j') as [Hlt|[Hjj|Hgt]]; [exfalso | exact Hjj | exfalso].
        - assert ((j + 1) * Z.to_nat channellimit <= j' * Z.to_nat channellimit)%nat
            by (apply Nat.mul_le_mono_r; lia).
          lia.
        - assert ((j' + 1) * Z.to_nat channellimit <= j * Z.to_nat channellimit)%nat
            by (apply Nat.mul_le_mono_r; lia).
          lia. }
      subst j'. split; [reflexivity | lia].
Qed.

(** ** Lines of a file *)

Lemma string_app_assoc : forall a b c : string, (a ++ b) ++ c = a ++ (b ++ c).
Proof.
  induction a as [|x a IH]; intros b c; cbn; [reflexivity | now rewrite IH].
Qed.

Lemma has_line_here : forall line after, has_line (line ++ after) line.
Proof. intros line after. now exists "", after. Qed.

Lemma has_line_right : forall text line before,
  has_line text line -> has_line (before ++ text) line.
Proof.
  intros text line before (b & a & ->). exists (before ++ b), a.
  now rewrite string_app_assoc.
Qed.

Lemma has_line_left : forall text line after,
  has_line text line -> has_line (text ++ after) line.
Proof.
  intros text line after (b & a & ->). exists b, (a ++ after).
  now rewrite !string_app_assoc.
Qed.

Section Lines.

Variable py_repr : string -> string.

Lemma render_group_has_line :
  forall g d text key val,
    render_group py_repr g d = (text, Ok tt) ->
    In (key, val) d ->
    has_line text (attr_line py_repr g key val).
Proof.
  intros g d. induction d as [|[k v] d IH]; intros text key val Hrun Hin;
    [contradiction|].
  cbn in Hrun. destruct (is_sequence v); [discriminate|].
  destruct (render_group py_repr g d) as [text' r] eqn:Hd.
  injection Hrun as <- ->.
  destruct Hin as [[= -> ->]|Hin].
  - apply has_line_here.
  - apply has_line_right. now apply IH.
Qed.

Lemma render_groups_has_line :
  forall params gs text g key val,
    render_groups py_repr gs params = (text, Ok tt) ->
    In g gs -> In (key, val) (get_group g params) ->
    has_line text (attr_line py_repr g key val).
Proof.
  intros params gs. induction gs as [|g0 gs IH]; intros text g key val Hrun Hg Hin;
    [contradiction|].
  cbn in Hrun.
  destruct (render_group py_repr g0 (get_group g0 params)) as [text0 [[]| |]] eqn:H0;
    try discriminate.
  destruct (render_groups py_repr gs params) as [text' r] eqn:Hgs.
  injection Hrun as <- ->.
  destruct Hg as [->|Hg].
  - apply has_line_left. now apply (render_group_has_line g (get_group g params)).
  - apply has_line_right. now apply (IH text' g).
Qed.

Lemma render_file_has_line :
  forall params channels text g key val,
    render_file py_repr params channels = (text, Ok tt) ->
    In (key, val) (get_group g params) ->
    has_line text (attr_line py_repr g key val).
Proof.
  intros params channels text g key val Hrun Hin. unfold render_file in Hrun.
  destruct (render_groups py_repr [PARAMETER; OUTPUT; DATA] params)
    as [text0 [[]| |]] eqn:H0; try discriminate.
  injection Hrun as <-.
  apply has_line_left.
  apply (render_groups_has_line params [PARAMETER; OUTPUT; DATA] text0 g);
    try assumption.
  destruct g; cbn; auto.
Qed.

Lemma write_files_rendered :
  forall params pardir channellist channellimit fuel i files parfiles,
    write_files py_repr fuel params pardir channellist channellimit i = (files, Ok parfiles) ->
    forall pfile channels,
      In (pfile, channels) parfiles ->
      exists text,
        In (pfile, text) files
        /\ render_file py_repr params channels = (text, Ok tt).
Proof.
  intros params pardir channellist channellimit.
  induction fuel as [|fuel IH]; intros i files parfiles Hrun pfile channels Hin;
    cbn [write_files] in Hrun; [discriminate|].
  destruct (i * channellimit <? Z.of_nat (List.length channellist)).
  - destruct (render_file py_repr params _) as [text [[]| |]] eqn:Hrender; try discriminate.
    destruct (write_files py_repr fuel params pardir channellist channellimit (i + 1))
      as [files' [parfiles'| |]] eqn:Hrest; cbn [res_bind] in Hrun; try discriminate.
    injection Hrun as <- <-.
    destruct Hin as [[= <- <-]|Hin].
    + exists text. split; [now left | exact Hrender].
    + destruct (IH _ _ _ Hrest pfile channels Hin) as (text' & Hin' & Hr').
      exists text'. split; [now right | exact Hr'].
  - injection Hrun as <- <-. contradiction.
Qed.

End Lines.

(** ** Writing parameters into the table *)

Lemma get_group_with_group_same :
  forall g f t, get_group g (with_group g f t) = f (get_group g t).
Proof. now intros [] f t. Qed.

Lemma get_group_with_group_other :
  forall g g' f t, g <> g' -> get_group g (with_group g' f t) = get_group g t.
Proof. intros [] [] f t H; try reflexivity; contradiction. Qed.

Lemma group_eq_dec : forall g g' : group, {g = g'} + {g <> g'}.
Proof. decide equality. Qed.

Lemma lookup_set_same :
  forall params g attr v,
    lookup (with_group g (dict_set attr v) params) (g, attr) = Some v.
Proof.
  intros. unfold lookup. cbn [fst snd].
  rewrite get_group_with_group_same. apply dict_get_set_same.
Qed.

Lemma lookup_with_group_other :
  forall params g attr f target,
    (forall d, snd target <> attr -> dict_get (snd target) (f d) = dict_get (snd target) d) ->
    target <> (g, attr) ->
    lookup (with_group g f params) target = lookup params target.
Proof.
  intros params g attr f [g' attr'] Hf Hne. unfold lookup. cbn [fst snd] in *.
  destruct (group_eq_dec g' g) as [->|Hg].
  - rewrite get_group_with_group_same. apply Hf. congruence.
  - now rewrite get_group_with_group_other.
Qed.

Lemma set_param_same :
  forall params key v,
    is_unset v = false ->
    lookup (set_param params (key, v)) (target_of key) = Some v.
Proof.
  intros params key v Hv. unfold set_param, target_of.
  destruct (OMICRON_PARAM_MAP key) as [[g attr]|].
  - apply lookup_set_same.
  - rewrite Hv. apply lookup_set_same.
Qed.

Lemma set_param_other :
  forall params key v target,
    target_of key <> target ->
    lookup (set_param params (key, v)) target = lookup params target.
Proof.
  intros params key v target Hne. unfold set_param, target_of in *.
  destruct (OMICRON_PARAM_MAP key) as [[g attr]|].
  - apply lookup_with_group_other with (attr := attr); [|congruence].
    intros d Hd. now apply dict_get_set_other.
  - destruct (is_unset v).
    + apply lookup_with_group_other with (attr := okey_of key); [|congruence].
      intros d Hd. now apply dict_get_del_other.
    + apply lookup_with_group_other with (attr := okey_of key); [|congruence].
      intros d Hd. now apply dict_get_set_other.
Qed.

Lemma target_eq_dec : forall t t' : group * string, {t = t'} + {t <> t'}.
Proof. decide equality; [apply string_dec | apply group_eq_dec]. Qed.

(** The value the table holds after a dictionary has been written into it,
    when one item only of the dictionary goes to that attribute. *)
Lemma set_params_written :
  forall (d : dict value) params key v,
    is_unset v = false ->
    (forall key' v', In (key', v') d -> target_of key' = target_of key ->
                     key' = key /\ v' = v) ->
    In (key, v) d \/ lookup params (target_of key) = Some v ->
    lookup (set_params d params) (target_of key) = Some v.
Proof.
  unfold set_params.
  induction d as [|[key0 v0] d IH]; intros params key v Hv Hone Hin; cbn [fold_left].
  - destruct Hin as [[]|Hin]. exact Hin.
  - apply IH; [exact Hv | intros key' v' H; apply Hone; now right |].
    destruct (target_eq_dec (target_of key0) (target_of key)) as [Heq|Hne].
    + destruct (Hone key0 v0 (or_introl eq_refl) Heq) as [-> ->].
      right. now apply set_param_same.
    + destruct Hin as [[[= -> ->]|Hin]|Hin]; [contradiction | now left |].
      right. now rewrite set_param_other.
Qed.

Section Restructure.

Variable py_repr : string -> string.

Lemma restructure_keeps :
  forall version params params' target v,
    restructure py_repr version params = (params', Ok tt) ->
    (version_ge_v2r2 version = true -> ~ In target restructured) ->
    lookup params target = Some v ->
    lookup params' target = Some v.
Proof.
  intros version params params' [g attr] v Hrun Hnot Hv. unfold restructure in Hrun.
  destruct (version_ge_v2r2 version); [|now injection Hrun as <-].
  specialize (Hnot eq_refl).
  destruct (restructure_timing py_repr (parameter_group params)) as [p r] eqn:Hp.
  injection Hrun as <- ->.
  unfold lookup in *. cbn [fst snd] in *.
  destruct g; try exact Hv. cbn [get_group with_group] in *.
  unfold restructure_timing, dict_pop in Hp.
  destruct (dict_get "CHUNKDURATION" (parameter_group params)) as [chunk|];
    cbn iota beta in Hp; [|discriminate].
  destruct (dict_get "SEGMENTDURATION" _) as [segment|];
    cbn iota beta in Hp; [|discriminate].
  destruct (dict_get "OVERLAPDURATION" _) as [overlap|];
    cbn iota beta in Hp; [|discriminate].
  injection Hp as <-.
  assert (Hattr : attr <> "CHUNKDURATION" /\ attr <> "SEGMENTDURATION"
                  /\ attr <> "OVERLAPDURATION" /\ attr <> "PSDLENGTH" /\ attr <> "TIMING").
  { repeat split; intros ->; apply Hnot; cbn; tauto. }
  destruct Hattr as (H1 & H2 & H3 & H4 & H5).
  cbn [parameter_group].
  match goal with |- dict_get attr (dict_setdefault _ _ ?p4) = _ =>
    assert (H4' : dict_get attr p4 = Some v)
  end.
  { now rewrite dict_get_set_other, !dict_get_del_other, dict_get_set_other,
      dict_get_del_other. }
  unfold dict_setdefault, dict_has.
  destruct (dict_get "FFTPLAN" _) eqn:Hfft; [exact H4'|].
  destruct (string_dec attr "FFTPLAN") as [->|Hne]; [congruence|].
  now rewrite dict_get_set_other.
Qed.

End Restructure.

(** ** The timing keys *)

Lemma dict_get_setdefault_same :
  forall (V : Type) (d : dict V) k v,
    dict_get k (dict_setdefault k v d)
    = Some (match dict_get k d with Some v' => v' | None => v end).
Proof.
  intros V d k v. unfold dict_setdefault, dict_has.
  destruct (dict_get k d) eqn:H; [exact H | apply dict_get_set_same].
Qed.

Lemma dict_get_setdefault_other :
  forall (V : Type) (d : dict V) k k' v,
    k' <> k -> dict_get k' (dict_setdefault k v d) = dict_get k' d.
Proof.
  intros V d k k' v Hne. unfold dict_setdefault.
  destruct (dict_has k d); [reflexivity | now apply dict_get_set_other].
Qed.

Section Timing.

Variable py_repr : string -> string.

Lemma restructure_timing_present :
  forall p chunk segment overlap,
    dict_get "CHUNKDURATION" p = Some chunk ->
    dict_get "SEGMENTDURATION" p = Some segment ->
    dict_get "OVERLAPDURATION" p = Some overlap ->
    exists p',
      restructure_timing py_repr p = (p', Ok tt)
      /\ dict_get "CHUNKDURATION" p' = None
      /\ dict_get "SEGMENTDURATION" p' = None
      /\ dict_get "OVERLAPDURATION" p' = None
      /\ dict_get "PSDLENGTH" p' = Some chunk
      /\ dict_get "TIMING" p'
         = Some (VStr (py_str py_repr segment ++ " " ++ py_str py_repr overlap))
      /\ dict_get "FFTPLAN" p'
         = Some (match dict_get "FFTPLAN" p with
                 | Some plan => plan
                 | None => VStr "FFTW_ESTIMATE"
                 end)
      /\ forall key, ~ In key (timing_keys ++ ["PSDLENGTH"; "TIMING"; "FFTPLAN"]) ->
                     dict_get key p' = dict_get key p.
Proof.
  intros p chunk segment overlap Hc Hs Ho.
  unfold restructure_timing, dict_pop. rewrite Hc. cbn iota beta.
  rewrite dict_get_set_other, dict_get_del_other, Hs by discriminate. cbn iota beta.
  rewrite !dict_get_del_other, dict_get_set_other, dict_get_del_other, Ho by discriminate.
  cbn iota beta.
  eexists. split; [reflexivity|].
  repeat split.
  - now rewrite dict_get_setdefault_other, dict_get_set_other, !dict_get_del_other,
      dict_get_set_other, dict_get_del_same by discriminate.
  - now rewrite dict_get_setdefault_other, dict_get_set_other, dict_get_del_other,
      dict_get_del_same by discriminate.
  - now rewrite dict_get_setdefault_other, dict_get_set_other,
      dict_get_del_same by discriminate.
  - now rewrite dict_get_setdefault_other, dict_get_set_other, !dict_get_del_other,
      dict_get_set_same by discriminate.
  - now rewrite dict_get_setdefault_other, dict_get_set_same by discriminate.
  - rewrite dict_get_setdefault_same.
    now rewrite dict_get_set_other, !dict_get_del_other, dict_get_set_other,
      dict_get_del_other by discriminate.
  - intros key Hkey.
    assert (H : key <> "CHUNKDURATION" /\ key <> "SEGMENTDURATION"
                /\ key <> "OVERLAPDURATION" /\ key <> "PSDLENGTH"
                /\ key <> "TIMING" /\ key <> "FFTPLAN").
    { repeat split; intros ->; apply Hkey; cbn; tauto. }
    destruct H as (H1 & H2 & H3 & H4 & H5 & H6).
    now rewrite dict_get_setdefault_other, dict_get_set_other, !dict_get_del_other,
      dict_get_set_other, dict_get_del_other.
Qed.

Lemma restructure_timing_missing :
  forall p key,
    first_missing p = Some key ->
    exists p', restructure_timing py_repr p = (p', Raise (KeyError key)).
Proof.
  intros p key. unfold first_missing, timing_keys, dict_has. cbn [find].
  unfold restructure_timing, dict_pop.
  destruct (dict_get "CHUNKDURATION" p) as [chunk|] eqn:Hc; cbn [negb].
  2: { intros [= <-]. now eexists. }
  cbn iota beta.
  rewrite dict_get_set_other, dict_get_del_other by discriminate.
  destruct (dict_get "SEGMENTDURATION" p) as [segment|] eqn:Hs; cbn [negb].
  2: { intros [= <-]. now eexists. }
  cbn iota beta.
  rewrite !dict_get_del_other, dict_get_set_other, dict_get_del_other by discriminate.
  destruct (dict_get "OVERLAPDURATION" p) as [overlap|] eqn:Ho; cbn [negb].
  2: { intros [= <-]. now eexists. }
  discriminate.
Qed.

End Timing.

(** ** The legacy ranges *)

Lemma dict_has_del_other :
  forall (V : Type) (d : dict V) k k', k' <> k -> dict_has k' (dict_del k d) = dict_has k' d.
Proof. intros. unfold dict_has. now rewrite dict_get_del_other. Qed.

Section Ranges.

Variable float_text : string -> option string.

Lemma reformat_range_synthesized :
  forall range_ low_ high_ config low high,
    range_ <> low_ -> range_ <> high_ ->
    dict_has range_ config = false ->
    getfloat float_text config low_ = Ok low ->
    getfloat float_text config high_ = Ok high ->
    exists config',
      reformat_range float_text (range_, low_, high_) config = Ok config'
      /\ dict_get range_ config' = Some (low ++ " " ++ high)
      /\ dict_get low_ config' = None
      /\ dict_get high_ config' = None.
Proof.
  intros range_ low_ high_ config low high Hl Hh Hr Hlow Hhigh.
  unfold reformat_range. rewrite Hr.
  assert (Hhas : dict_has low_ config = true).
  { unfold getfloat in Hlow. unfold dict_has.
    destruct (dict_get low_ config); [reflexivity | discriminate]. }
  rewrite Hhas, Hlow, Hhigh. cbn.
  eexists. split; [reflexivity|]. repeat split.
  - now rewrite !dict_get_del_other, dict_get_set_same by congruence.
  - destruct (string_dec low_ high_) as [->|Hne].
    + apply dict_get_del_same.
    + now rewrite dict_get_del_other, dict_get_del_same.
  - apply dict_get_del_same.
Qed.

Lemma reformat_range_silent :
  forall range_ low_ high_ config,
    dict_has range_ config = true \/ dict_has low_ config = false ->
    reformat_range float_text (range_, low_, high_) config
    = Ok (dict_del high_ (dict_del low_ config)).
Proof.
  intros range_ low_ high_ config H. unfold reformat_range.
  destruct H as [-> | ->]; cbn; [reflexivity|].
  now rewrite andb_false_r.
Qed.

Lemma reformat_lcf_silent :
  forall config,
    (forall range_ low_ high_, In (range_, low_, high_) ranges ->
       dict_has range_ config = true \/ dict_has low_ config = false) ->
    reformat_lcf float_text config
    = Ok (dict_del "qhigh" (dict_del "qlow" (dict_del "fhigh" (dict_del "flow" config)))).
Proof.
  intros config H. unfold reformat_lcf.
  rewrite reformat_range_silent by (apply (H _ _ "fhigh"); cbn; auto).
  cbn [res_bind].
  rewrite reformat_range_silent; [reflexivity|].
  rewrite !dict_has_del_other by discriminate.
  apply (H _ _ "qhigh"). cbn; auto.
Qed.

Lemma reformat_range_half :
  forall range_ low_ high_ config low,
    dict_has range_ config = false ->
    getfloat float_text config low_ = Ok low ->
    dict_has high_ config = false ->
    reformat_range float_text (range_, low_, high_) config = Raise (NoOptionError high_).
Proof.
  intros range_ low_ high_ config low Hr Hlow Hh.
  unfold reformat_range. rewrite Hr.
  assert (Hhas : dict_has low_ config = true).
  { unfold getfloat in Hlow. unfold dict_has.
    destruct (dict_get low_ config); [reflexivity | discriminate]. }
  rewrite Hhas, Hlow. cbn. unfold getfloat. unfold dict_has in Hh.
  destruct (dict_get high_ config); [discriminate | reflexivity].
Qed.

End Ranges.

(** ** What the Builder leaves in the table *)

Lemma set_params_untouched :
  forall (d : dict value) params target,
    (forall key, target_of key <> target) ->
    lookup (set_params d params) target = lookup params target.
Proof.
  unfold set_params.
  induction d as [|[key v] d IH]; intros params target Hne; cbn [fold_left];
    [reflexivity|].
  rewrite IH by exact Hne. now apply set_param_other.
Qed.

Lemma target_of_not_injected :
  forall key, target_of key <> (DATA, "FFL") /\ target_of key <> (OUTPUT, "DIRECTORY").
Proof.
  intros key. unfold target_of, OMICRON_PARAM_MAP.
  destruct (key =? "sample-frequency")%string; split; discriminate.
Qed.

Section Leaving.

Variable float_text : string -> option string.
Variable py_repr : string -> string.

Lemma restructure_other_groups :
  forall version params params' r,
    restructure py_repr version params = (params', r) ->
    output_group params' = output_group params
    /\ data_group params' = data_group params.
Proof.
  intros version params params' r Hrun. unfold restructure in Hrun.
  destruct (version_ge_v2r2 version).
  - destruct (restructure_timing py_repr (parameter_group params)) as [p r0].
    injection Hrun as <- _. now split.
  - injection Hrun as <- _. now split.
Qed.

Lemma gather_params_injected :
  forall config cachefile trigdir kwargs defaults params channellist,
    gather_params float_text config cachefile trigdir kwargs defaults
    = (params, Ok channellist) ->
    lookup params (DATA, "FFL") = Some (VStr cachefile)
    /\ lookup params (OUTPUT, "DIRECTORY") = Some (VStr trigdir).
Proof.
  intros config cachefile trigdir kwargs defaults params channellist Hrun.
  unfold gather_params in Hrun.
  destruct (reformat_lcf float_text config) as [config'| |]; try discriminate.
  destruct (dict_pop "channels" config') as [cpparams [channels| |]]; try discriminate.
  injection Hrun as <- _.
  split.
  - rewrite !set_params_untouched by (intros key; apply target_of_not_injected).
    unfold lookup. cbn. apply dict_get_set_same.
  - rewrite !set_params_untouched by (intros key; apply target_of_not_injected).
    unfold lookup. cbn. apply dict_get_set_same.
Qed.

(** The Builder once the table is gathered: the version step, then the
    files, all from the table the version step leaves. *)
Lemma generate_after_gather :
  forall fuel config cachefile rundir channellimit version kwargs defaults
         params channellist,
    gather_params float_text config cachefile (path_join rundir "triggers") kwargs defaults
    = (params, Ok channellist) ->
    generate_parameters_files float_text py_repr fuel config cachefile rundir
      channellimit version kwargs defaults
    = match restructure py_repr version params with
      | (params', Ok _) =>
          let (files, r) :=
            write_files py_repr fuel params' (path_join rundir "parameters")
              channellist channellimit 0 in
          Outcome params' files r
      | (params', Raise e) => Outcome params' [] (Raise e)
      | (params', OutOfFuel) => Outcome params' [] OutOfFuel
      end.
Proof.
  intros. unfold generate_parameters_files. now rewrite H.
Qed.

Lemma generate_returned :
  forall fuel config cachefile rundir channellimit version kwargs defaults parfiles,
    returned (generate_parameters_files float_text py_repr fuel config cachefile rundir
                channellimit version kwargs defaults) = Ok parfiles ->
    exists params channellist params' files,
      gather_params float_text config cachefile (path_join rundir "triggers") kwargs defaults
      = (params, Ok channellist)
      /\ restructure py_repr version params = (params', Ok tt)
      /\ write_files py_repr fuel params' (path_join rundir "parameters")
           channellist channellimit 0 = (files, Ok parfiles)
      /\ generate_parameters_files float_text py_repr fuel config cachefile rundir
           channellimit version kwargs defaults
         = Outcome params' files (Ok parfiles).
Proof.
  intros fuel config cachefile rundir channellimit version kwargs defaults parfiles.
  unfold generate_parameters_files.
  destruct (gather_params float_text config cachefile _ kwargs defaults)
    as [params [channellist| |]] eqn:Hg; cbn [returned]; try discriminate.
  destruct (restructure py_repr version params) as [params' [[]| |]] eqn:Hr;
    cbn [returned]; try discriminate.
  destruct (write_files py_repr fuel params' _ channellist channellimit 0)
    as [files r] eqn:Hw.
  cbn [returned]. intros ->. now exists params, channellist, params', files.
Qed.

End Leaving.

(** ** The Validator's comparisons *)

Ltac case_bool :=
  match goal with
  | |- context [ (?a <=? ?b) ] => destruct (Z.leb_spec a b)
  | |- context [ (?a >=? ?b) ] => rewrite (Z.geb_leb a b)
  | |- context [ (?a =? ?b) ] => destruct (Z.eqb_spec a b)
  end.

(** * The claims *)

(** ** The channel partition *)

(** C1: for a channel limit [channellimit > 0], the loop that writes the
    files returns, whenever it returns, [ceil(N / channellimit)] pairs for a
    channel list of length [N]; their subsets are the consecutive chunks of
    the list, concatenate to it, and share no position ([partitions]).  It
    does return, given fuel above [N], when no parameter is a list or tuple;
    on the empty list it returns no pair and writes no file.  So does the
    Builder: what it returns is what the loop returns on the lines of the
    configuration's [channels], and it does return such pairs, having
    written their files, whenever the configuration was read, the version
    step passed, no parameter left in the table is a list or tuple and the
    fuel is above [N]. *)
Theorem channels_partitioned :
  forall (float_text : string -> option string) (py_repr : string -> string)
         (channellimit : Z),
    0 < channellimit ->
    (forall params pardir channellist fuel files parfiles,
        write_files py_repr fuel params pardir channellist channellimit 0
        = (files, Ok parfiles) ->
        partitions pardir channellist channellimit parfiles
        /\ map fst files = map fst parfiles)
    /\ (forall params pardir channellist fuel,
          all_scalar params = true ->
          (List.length channellist < fuel)%nat ->
          exists files parfiles,
            write_files py_repr fuel params pardir channellist channellimit 0
            = (files, Ok parfiles))
    /\ (forall params pardir fuel,
          write_files py_repr (S fuel) params pardir [] channellimit 0 = ([], Ok []))
    /\ (forall fuel config cachefile rundir version kwargs defaults parfiles,
          returned (generate_parameters_files float_text py_repr fuel config cachefile
                      rundir channellimit version kwargs defaults) = Ok parfiles ->
          exists channels,
            dict_get "channels" config = Some channels
            /\ partitions (path_join rundir "parameters")
                 (split_on "010"%char channels) channellimit parfiles)
    /\ (forall fuel config cachefile rundir version kwargs defaults
               params channellist params',
          gather_params float_text config cachefile (path_join rundir "triggers")
            kwargs defaults = (params, Ok channellist) ->
          restructure py_repr version params = (params', Ok tt) ->
          all_scalar params' = true ->
          (List.length channellist < fuel)%nat ->
          exists files parfiles,
            generate_parameters_files float_text py_repr fuel config cachefile
              rundir channellimit version kwargs defaults
            = Outcome params' files (Ok parfiles)
            /\ partitions (path_join rundir "parameters") channellist channellimit
                 parfiles
            /\ map fst files = map fst parfiles).
Proof.
  intros float_text py_repr channellimit HL. split; [|split; [|split; [|split]]].
  - intros params pardir channellist fuel files parfiles Hrun. split.
    + exact (write_files_partitions _ _ _ _ _ _ _ _ HL Hrun).
    + now destruct (write_files_from py_repr params pardir channellist channellimit HL
                      fuel 0 files parfiles (Z.le_refl 0) Hrun) as (_ & _ & Hf & _).
  - intros params pardir channellist fuel Hs Hfuel.
    apply write_files_total; try assumption; lia.
  - reflexivity.
  - intros fuel config cachefile rundir version kwargs defaults parfiles Hret.
    destruct (generate_returned _ _ _ _ _ _ _ _ _ _ _ Hret)
      as (params & channellist & params' & files & Hg & _ & Hw & _).
    destruct (gather_params_channels _ _ _ _ _ _ _ _ Hg) as (channels & Hc & ->).
    exists channels. split; [exact Hc|].
    exact (write_files_partitions _ _ _ _ _ _ _ _ HL Hw).
  - intros fuel config cachefile rundir version kwargs defaults params channellist
      params' Hg Hr Hs Hfuel.
    destruct (write_files_total py_repr params' (path_join rundir "parameters")
                channellist channellimit HL Hs fuel 0 (Z.le_refl 0))
      as (files & parfiles & Hw); [lia|].
    exists files, parfiles.
    rewrite (generate_after_gather _ _ _ _ _ _ _ _ _ _ _ _ Hg), Hr, Hw.
    split; [reflexivity | split].
    + exact (write_files_partitions _ _ _ _ _ _ _ _ HL Hw).
    + now destruct (write_files_from py_repr params' _ channellist channellimit HL
                      fuel 0 files parfiles (Z.le_refl 0) Hw) as (_ & _ & Hf & _).
Qed.

(** The Builder on three channels with a limit of two: it returns, and what
    it returns partitions the channels. *)
Lemma channels_partitioned_witness :
  exists files parfiles,
    returned (sample_builder 5 [("channels", three_channels)] "cache.lcf" "/run" 2
                "v2r1" [] DEFAULTS) = Ok parfiles
    /\ written (sample_builder 5 [("channels", three_channels)] "cache.lcf" "/run" 2
                  "v2r1" [] DEFAULTS) = files
    /\ partitions "/run/parameters" ["H1:A"; "H1:B"; "H1:C"] 2 parfiles
    /\ map fst files = map fst parfiles.
Proof.
  destruct (proj2 (proj2 (proj2 (proj2
              (channels_partitioned digits_float_text plain_repr 2 eq_refl))))
              5%nat [("channels", three_channels)] "cache.lcf" "/run" "v2r1" []
              DEFAULTS _ ["H1:A"; "H1:B"; "H1:C"] _ eq_refl eq_refl eq_refl
              ltac:(vm_compute; lia))
    as (files & parfiles & Heq & Hp & Hf).
  exists files, parfiles. unfold sample_builder. rewrite Heq.
  split; [reflexivity | split; [reflexivity | split; assumption]].
Defined.

(** ** The Validator *)

(** C2 (amended): with [frange] and [sampling] omitted, the Validator
    succeeds exactly when checks 1 to 5 hold, [segment <> overlap] and
    [(chunk - overlap) mod (segment - overlap) = 0]; and on every input
    other than those where checks 1 to 5 hold with [segment = overlap]
    (which takes a negative overlap) its result is that of the
    specification: the checks are made in order and the first that fails
    gives the reason. *)
Theorem validate_six_checks :
  forall (frange_t sampling_t : Type)
         (frequency_bound : Z -> Z -> frange_t -> sampling_t -> res unit)
         (chunk segment overlap : Z),
    (validate_parameters frequency_bound chunk segment overlap None None = Ok tt <->
       five_checks chunk segment overlap /\ segment <> overlap
       /\ (chunk - overlap) mod (segment - overlap) = 0)
    /\ (~ (five_checks chunk segment overlap /\ segment = overlap) ->
        validate_parameters frequency_bound chunk segment overlap None None
        = validate_spec chunk segment overlap).
Proof.
  intros ? ? fb chunk segment overlap.
  unfold validate_parameters, validate_spec, checks_in_order, five_checks, py_assert, py_mod.
  cbn [find fst negb res_bind].
  change (2 =? 0) with false. cbn iota.
  repeat (case_bool; cbn [negb res_bind]);
    (split; [ split; [ intros HH; try discriminate; repeat split; lia
                     | intros HH; try reflexivity; exfalso; lia ]
            | intros HH; try reflexivity; exfalso; apply HH; repeat split; lia ]).
Qed.

(** The two failures the claim cites, from the theorem. *)
Lemma validate_six_checks_witness :
  validate 9 4 2 = Raise (AssertionError (msg_tiling 1))
  /\ validate 4 2 2 = Raise (AssertionError msg_half).
Proof.
  split.
  - refine (eq_trans (proj2 (validate_six_checks _ _ no_frequency_bound 9 4 2) _) _).
    + intros [_ H]. discriminate H.
    + reflexivity.
  - refine (eq_trans (proj2 (validate_six_checks _ _ no_frequency_bound 4 2 2) _) _).
    + intros [(_ & _ & _ & _ & H) _]. apply H. reflexivity.
    + reflexivity.
Defined.

(** C2, the claim as stated fails: at chunk 0, segment -2, overlap -2 the
    first five checks pass and the specification reports the tiling reason
    with remainder 2, while the code raises [ZeroDivisionError]. *)
Lemma validate_zero_divisor :
  validate 0 (-2) (-2) = Raise ZeroDivisionError
  /\ validate_spec 0 (-2) (-2) = Raise (AssertionError (msg_tiling 2))
  /\ five_checks 0 (-2) (-2).
Proof.
  split; [reflexivity | split; [reflexivity|]].
  unfold five_checks. repeat split; try lia; discriminate.
Qed.

(** C10: the Validator accepts chunk 10, segment 2, overlap -2, whatever
    the frequency stage is: no check asks for a positive duration. *)
Theorem validate_accepts_negative_overlap :
  forall (frange_t sampling_t : Type)
         (frequency_bound : Z -> Z -> frange_t -> sampling_t -> res unit),
    validate_parameters frequency_bound 10 2 (-2) None None = Ok tt
    /\ five_checks 10 2 (-2)
    /\ (10 - -2) mod (2 - -2) = 0
    /\ -2 < 0.
Proof.
  intros. split; [reflexivity | split; [|split; reflexivity]].
  unfold five_checks. repeat split; try lia; discriminate.
Qed.

(** C6 (amended): for an integer sampling rate.  When [frange] or
    [sampling] is omitted the result is that of checks 1 to 6, with no
    frequency check; when checks 1 to 6 do not pass, the frequency stage is
    not reached.  When both are given and checks 1 to 6 pass, take the size
    [psdsize] the code computes, [2 * sampling] for a low end of at least 1
    and what lines 204-205 give below it; if the division
    [psdsize / sampling] and the diagnostic of line 211 evaluate without an
    exception, the Validator succeeds exactly when
    [(chunk - overlap) * sampling >= 2 * psdsize]. *)
Theorem frequency_bound_decides :
  forall (frange_t pyfloat : Type)
         (low_below_one : frange_t -> bool) (low_psdsize : Z -> frange_t -> res Z)
         (truediv : Z -> Z -> res pyfloat) (flow_of : Z -> Z -> Z -> res pyfloat)
         (bound_message : pyfloat -> Z -> pyfloat -> res string)
         (chunk segment overlap : Z),
    let stage := frequency_check low_below_one low_psdsize truediv flow_of
                   bound_message in
    (forall frange sampling,
        validate_parameters stage chunk segment overlap frange None
        = validate_parameters stage chunk segment overlap None None
        /\ validate_parameters stage chunk segment overlap None sampling
           = validate_parameters stage chunk segment overlap None None)
    /\ (forall frange sampling,
          validate_parameters stage chunk segment overlap None None <> Ok tt ->
          validate_parameters stage chunk segment overlap frange sampling
          = validate_parameters stage chunk segment overlap None None)
    /\ (forall frange sampling psdsize psdlen flow,
          validate_parameters stage chunk segment overlap None None = Ok tt ->
          psdsize_of low_below_one low_psdsize frange sampling = Ok psdsize ->
          truediv psdsize sampling = Ok psdlen ->
          flow_of sampling chunk overlap = Ok flow ->
          (validate_parameters stage chunk segment overlap (Some frange) (Some sampling)
           = Ok tt
           <-> (chunk - overlap) * sampling >= 2 * psdsize)).
Proof.
  intros frange_t pyfloat low_below_one low_psdsize truediv flow_of bound_message
    chunk segment overlap stage.
  split; [|split].
  - intros frange sampling. unfold validate_parameters.
    destruct frange, sampling; split; reflexivity.
  - intros frange sampling. unfold validate_parameters, py_assert, py_mod.
    change (2 =? 0) with false. cbn iota.
    repeat (case_bool; cbn [negb res_bind]); intros HH; try reflexivity.
    now contradiction HH.
  - intros frange sampling psdsize psdlen flow Hsix Hsize Hdiv Hflow.
    assert (Hstage : validate_parameters stage chunk segment overlap
                       (Some frange) (Some sampling)
                     = stage chunk overlap frange sampling).
    { revert Hsix. unfold validate_parameters, py_assert, py_mod.
      change (2 =? 0) with false. cbn iota.
      repeat (case_bool; cbn [negb res_bind]); try discriminate. reflexivity. }
    rewrite Hstage. unfold stage, frequency_check.
    rewrite Hsize. cbn [res_bind]. rewrite Hdiv. cbn [res_bind].
    rewrite Hflow. cbn [res_bind].
    replace (chunk * sampling - overlap * sampling)
      with ((chunk - overlap) * sampling) by lia.
    rewrite Z.geb_leb.
    destruct (Z.leb_spec (2 * psdsize) ((chunk - overlap) * sampling)) as [Hle|Hgt].
    + split; [lia | reflexivity].
    + split; [|lia]. destruct (bound_message psdlen overlap flow); discriminate.
Qed.

(** A chunk of 8 with segments of 4 overlapping by 2, a range from 10 Hz
    and 4096 samples a second: 6 * 4096 is at least 2 * 8192. *)
Lemma frequency_bound_decides_witness :
  validate_parameters sample_frequency_check 8 4 2
    (Some (10%positive, 100%positive)) (Some 4096) = Ok tt.
Proof.
  apply (proj2 (proj2 (proj2 (frequency_bound_decides _ _ (fun _ => false)
                                (fun _ _ => Raise (ValueError "math domain error"))
                                sample_truediv sample_flow sample_message 8 4 2))
                  (10%positive, 100%positive) 4096 8192 (Quotient 8192 4096)
                  (Flow 4096 8 2) eq_refl eq_refl eq_refl eq_refl)).
  vm_compute. discriminate.
Defined.

(** C6, the claim as stated fails: at chunk 8, segment 4, overlap 2, a
    range from 10 Hz and a sampling rate of 0, checks 1 to 6 pass, the
    size is [2 * 0] and the criterion [(8 - 2) * 0 >= 2 * (2 * 0)] holds,
    but line 208 divides by the sampling rate and the Validator raises
    [ZeroDivisionError]. *)
Lemma zero_sampling_raises :
  validate_parameters sample_frequency_check 8 4 2
    (Some (10%positive, 100%positive)) (Some 0) = Raise ZeroDivisionError
  /\ validate_parameters sample_frequency_check 8 4 2 None None = Ok tt
  /\ psdsize_of (fun _ : positive * positive => false)
       (fun _ _ => Raise (ValueError "math domain error"))
       (10%positive, 100%positive) 0 = Ok (2 * 0)
  /\ (8 - 2) * 0 >= 2 * (2 * 0).
Proof.
  repeat split; try reflexivity. vm_compute. discriminate.
Qed.

(** ** The version step *)

(** C3 (amended): for a version [>= "v2r2"] (comparison of strings), when
    the PARAMETER group holds CHUNKDURATION, SEGMENTDURATION and
    OVERLAPDURATION the step removes the three, sets PSDLENGTH to the old
    CHUNKDURATION value and TIMING to ["<segment> <overlap>"], and leaves
    FFTPLAN set, to [FFTW_ESTIMATE] if it was not there, with the other
    groups untouched; when one of the three is missing the step, and with it
    the Builder, raises [KeyError] for the first missing one and no file is
    written.  For a version below, the step leaves the whole table as it is:
    the three keys stay, and PSDLENGTH and TIMING are there only if they
    were before. *)
Theorem restructure_by_version :
  forall (float_text : string -> option string) (py_repr : string -> string)
         (version : string) (params : table),
    (version_ge_v2r2 version = true ->
       (forall chunk segment overlap,
          dict_get "CHUNKDURATION" (parameter_group params) = Some chunk ->
          dict_get "SEGMENTDURATION" (parameter_group params) = Some segment ->
          dict_get "OVERLAPDURATION" (parameter_group params) = Some overlap ->
          exists params',
            restructure py_repr version params = (params', Ok tt)
            /\ dict_get "CHUNKDURATION" (parameter_group params') = None
            /\ dict_get "SEGMENTDURATION" (parameter_group params') = None
            /\ dict_get "OVERLAPDURATION" (parameter_group params') = None
            /\ dict_get "PSDLENGTH" (parameter_group params') = Some chunk
            /\ dict_get "TIMING" (parameter_group params')
               = Some (VStr (py_str py_repr segment ++ " " ++ py_str py_repr overlap))
            /\ dict_get "FFTPLAN" (parameter_group params')
               = Some (match dict_get "FFTPLAN" (parameter_group params) with
                       | Some plan => plan
                       | None => VStr "FFTW_ESTIMATE"
                       end)
            /\ output_group params' = output_group params
            /\ data_group params' = data_group params)
       /\ (forall key,
             first_missing (parameter_group params) = Some key ->
             (exists params', restructure py_repr version params = (params', Raise (KeyError key)))
             /\ forall fuel config cachefile rundir channellimit kwargs defaults channellist,
                  gather_params float_text config cachefile (path_join rundir "triggers")
                    kwargs defaults = (params, Ok channellist) ->
                  let out := generate_parameters_files float_text py_repr fuel config
                               cachefile rundir channellimit version kwargs defaults in
                  returned out = Raise (KeyError key) /\ written out = []))
    /\ (version_ge_v2r2 version = false ->
        restructure py_repr version params = (params, Ok tt)).
Proof.
  intros float_text py_repr version params. split.
  - intros Hv. split.
    + intros chunk segment overlap Hc Hs Ho.
      destruct (restructure_timing_present py_repr _ _ _ _ Hc Hs Ho)
        as (p' & Hrun & H1 & H2 & H3 & H4 & H5 & H6 & _).
      exists (with_group PARAMETER (fun _ => p') params).
      unfold restructure. rewrite Hv, Hrun. cbn. repeat split; assumption.
    + intros key Hkey.
      destruct (restructure_timing_missing py_repr _ _ Hkey) as (p' & Hrun).
      assert (Hr : restructure py_repr version params
                   = (with_group PARAMETER (fun _ => p') params, Raise (KeyError key)))
        by (unfold restructure; now rewrite Hv, Hrun).
      split; [eexists; exact Hr|].
      intros fuel config cachefile rundir channellimit kwargs defaults channellist Hg.
      cbv zeta. rewrite (generate_after_gather _ _ _ _ _ _ _ _ _ _ _ _ Hg), Hr.
      now split.
  - intros Hv. unfold restructure. now rewrite Hv.
Qed.

(** The step on the three keys alone, for version ["v2r2"]. *)
Lemma restructure_by_version_witness :
  exists params',
    restructure plain_repr "v2r2"
      (Table [("CHUNKDURATION", VStr "64"); ("SEGMENTDURATION", VInt 8);
              ("OVERLAPDURATION", VInt 2)] [] []) = (params', Ok tt)
    /\ parameter_group params'
       = [("PSDLENGTH", VStr "64"); ("TIMING", VStr "8 2");
          ("FFTPLAN", VStr "FFTW_ESTIMATE")].
Proof.
  destruct (proj1 (proj1 (restructure_by_version digits_float_text plain_repr "v2r2"
                    (Table [("CHUNKDURATION", VStr "64"); ("SEGMENTDURATION", VInt 8);
                            ("OVERLAPDURATION", VInt 2)] [] [])) eq_refl)
              (VStr "64") (VInt 8) (VInt 2) eq_refl eq_refl eq_refl)
    as (params' & Hrun & _).
  exists params'. split; [exact Hrun|].
  vm_compute in Hrun. now injection Hrun as <-.
Defined.

(** C3, the claim as stated fails: for version ["v2r1"], below ["v2r2"], a
    configuration that has a [timing] option gets TIMING in the PARAMETER
    group and a TIMING line in its file. *)
Lemma timing_emitted_below_v2r2 :
  let out := sample_builder 5 [("channels", "H1:A"); ("timing", "64 4")]
               "cache.lcf" "/run" 10 "v2r1" [] DEFAULTS in
  version_ge_v2r2 "v2r1" = false
  /\ returned out = Ok [("/run/parameters/parameters_0.txt", ["H1:A"])]
  /\ lookup (defaults_after out) (PARAMETER, "TIMING") = Some (VStr "64 4")
  /\ exists text,
       written out = [("/run/parameters/parameters_0.txt", text)]
       /\ has_line text (attr_line plain_repr PARAMETER "TIMING" (VStr "64 4")).
Proof.
  cbv zeta. repeat split; try (vm_compute; reflexivity).
  eexists. split; [vm_compute; reflexivity|].
  exists (attr_line plain_repr PARAMETER "CLUSTERING" (VStr "TIME")).
  eexists. vm_compute. reflexivity.
Qed.

(** ** The legacy ranges *)

(** C7 (amended): for each of the two ranges, when the combined option is
    absent and the low and high options are there with texts that read as
    floats, the step sets the combined option to ["<low> <high>"] and
    removes the two; when the combined option is there, or the low option is
    not, the step only removes the low and high options that are there; and
    when that is so for both ranges the whole step returns without an
    exception. *)
Theorem legacy_ranges_reformatted :
  forall (float_text : string -> option string),
    (forall range_ low_ high_ config low high,
        In (range_, low_, high_) ranges ->
        dict_has range_ config = false ->
        getfloat float_text config low_ = Ok low ->
        getfloat float_text config high_ = Ok high ->
        exists config',
          reformat_range float_text (range_, low_, high_) config = Ok config'
          /\ dict_get range_ config' = Some (low ++ " " ++ high)
          /\ dict_get low_ config' = None
          /\ dict_get high_ config' = None)
    /\ (forall range_ low_ high_ config,
          In (range_, low_, high_) ranges ->
          dict_has range_ config = true \/ dict_has low_ config = false ->
          reformat_range float_text (range_, low_, high_) config
          = Ok (dict_del high_ (dict_del low_ config)))
    /\ (forall config,
          (forall range_ low_ high_, In (range_, low_, high_) ranges ->
             dict_has range_ config = true \/ dict_has low_ config = false) ->
          reformat_lcf float_text config
          = Ok (dict_del "qhigh" (dict_del "qlow"
                  (dict_del "fhigh" (dict_del "flow" config))))).
Proof.
  intros float_text. split; [|split].
  - intros range_ low_ high_ config low high Hin.
    destruct Hin as [[= <- <- <-]|[[= <- <- <-]|[]]];
      apply reformat_range_synthesized; discriminate.
  - intros range_ low_ high_ config _. apply reformat_range_silent.
  - apply reformat_lcf_silent.
Qed.

(** [flow] 10 and [fhigh] 100 become the range ["10.0 100.0"]. *)
Lemma legacy_ranges_reformatted_witness :
  exists config',
    reformat_range digits_float_text ("frequency-range", "flow", "fhigh")
      [("channels", "H1:A"); ("flow", "10"); ("fhigh", "100")] = Ok config'
    /\ dict_get "frequency-range" config' = Some "10.0 100.0"
    /\ dict_get "flow" config' = None
    /\ dict_get "fhigh" config' = None.
Proof.
  exact (proj1 (legacy_ranges_reformatted digits_float_text)
           "frequency-range" "flow" "fhigh"
           [("channels", "H1:A"); ("flow", "10"); ("fhigh", "100")] "10.0" "100.0"
           (or_introl eq_refl) eq_refl eq_refl eq_refl).
Defined.

(** C7, the claim as stated fails: with [flow] there and [fhigh] and
    [frequency-range] absent, the step, and with it the Builder, raises
    [NoOptionError] for [fhigh]. *)
Lemma missing_high_raises :
  reformat_lcf digits_float_text [("channels", "H1:A"); ("flow", "10")]
  = Raise (NoOptionError "fhigh")
  /\ returned (sample_builder 5 [("channels", "H1:A"); ("flow", "10")]
                 "cache.lcf" "/run" 10 "v2r1" [] DEFAULTS)
     = Raise (NoOptionError "fhigh").
Proof. split; vm_compute; reflexivity. Qed.

(** ** Overrides *)

(** C9 (amended): take a keyword argument [key] with a value [v] that is not
    an unset token, such that no other keyword argument is written to the
    same group and attribute and, for a version [>= "v2r2"], that attribute
    is none of those the version step removes or assigns.  Whatever the
    configuration holds for [key], when the Builder returns, the table holds
    [v] for the attribute and every file returned has the line of the
    attribute with [v]. *)
Theorem override_wins :
  forall (float_text : string -> option string) (py_repr : string -> string)
         fuel config cachefile rundir channellimit version
         (kwargs : dict value) defaults key v parfiles,
    In (key, v) kwargs ->
    is_unset v = false ->
    (forall key' v', In (key', v') kwargs -> target_of key' = target_of key ->
                     key' = key /\ v' = v) ->
    (version_ge_v2r2 version = true -> ~ In (target_of key) restructured) ->
    let out := generate_parameters_files float_text py_repr fuel config cachefile rundir
                 channellimit version kwargs defaults in
    returned out = Ok parfiles ->
    lookup (defaults_after out) (target_of key) = Some v
    /\ forall pfile channels,
         In (pfile, channels) parfiles ->
         exists text,
           In (pfile, text) (written out)
           /\ has_line text
                (attr_line py_repr (fst (target_of key)) (snd (target_of key)) v).
Proof.
  intros float_text py_repr fuel config cachefile rundir channellimit version
    kwargs defaults key v parfiles Hin Hv Hone Hver out Hret.
  destruct (generate_returned _ _ _ _ _ _ _ _ _ _ _ Hret)
    as (params & channellist & params' & files & Hg & Hr & Hw & Hout).
  subst out. rewrite Hout. cbn [defaults_after written].
  assert (Hparams : lookup params (target_of key) = Some v).
  { unfold gather_params in Hg.
    destruct (reformat_lcf float_text config) as [config'| |]; try discriminate.
    destruct (dict_pop "channels" config') as [cpparams [channels| |]]; try discriminate.
    injection Hg as <- _.
    apply set_params_written; [exact Hv | exact Hone | now left]. }
  assert (Hparams' : lookup params' (target_of key) = Some v)
    by exact (restructure_keeps py_repr _ _ _ _ _ Hr Hver Hparams).
  split; [exact Hparams'|].
  intros pfile channels Hpf.
  destruct (write_files_rendered py_repr _ _ _ _ _ _ _ _ Hw pfile channels Hpf)
    as (text & Hfile & Hrender).
  exists text. split; [exact Hfile|].
  apply (render_file_has_line py_repr params' channels); [exact Hrender|].
  apply dict_get_In. exact Hparams'.
Qed.

(** An override of the default CLUSTERING that the configuration also
    sets. *)
Lemma override_wins_witness :
  exists text,
    In ("/run/parameters/parameters_0.txt", text)
       (written (sample_builder 5 [("channels", "H1:A"); ("clustering", "TIME")]
                   "cache.lcf" "/run" 10 "v2r1" [("clustering", VStr "NONE")] DEFAULTS))
    /\ has_line text (attr_line plain_repr PARAMETER "CLUSTERING" (VStr "NONE")).
Proof.
  refine (proj2 (override_wins digits_float_text plain_repr 5
                   [("channels", "H1:A"); ("clustering", "TIME")]
                   "cache.lcf" "/run" 10 "v2r1" [("clustering", VStr "NONE")] DEFAULTS
                   "clustering" (VStr "NONE")
                   [("/run/parameters/parameters_0.txt", ["H1:A"])]
                   (or_introl eq_refl) eq_refl _ _ _)
            "/run/parameters/parameters_0.txt" ["H1:A"] (or_introl eq_refl)).
  - intros key' v' [[= <- <-]|[]] _. split; reflexivity.
  - intros H. discriminate H.
  - vm_compute. reflexivity.
Defined.

(** C9, the claim as stated fails: for version ["v2r2"] a [psdlength] given
    both in the configuration and as a keyword argument is overwritten by
    the value of [chunkduration], and of two keyword arguments that differ
    in case only, the one read last is the one the table keeps. *)
Lemma override_lost :
  lookup (defaults_after
            (sample_builder 5 (("psdlength", "1") :: timed_config) "cache.lcf" "/run"
               10 "v2r2" [("psdlength", VStr "2")] DEFAULTS))
         (target_of "psdlength")
  = Some (VStr "64")
  /\ lookup (defaults_after
               (sample_builder 5 [("channels", "H1:A"); ("foo", "x")] "cache.lcf" "/run"
                  10 "v2r1" [("foo", VStr "a"); ("FOO", VStr "b")] DEFAULTS))
            (target_of "foo")
     = Some (VStr "b").
Proof. split; vm_compute; reflexivity. Qed.

(** ** Sequences *)

(** C8 (the code fails the claim): when a parameter of the table is a list
    or a tuple, writing the first file raises [TypeError], for any channel
    list that is not empty, and the loop returns no pair. *)
Theorem sequence_value_raises :
  forall (py_repr : string -> string) params pardir channellist channellimit fuel,
    all_scalar params = false ->
    channellist <> [] ->
    snd (write_files py_repr (S fuel) params pardir channellist channellimit 0)
    = Raise TypeError.
Proof.
  intros py_repr params pardir channellist channellimit fuel Hs Hne.
  cbn [write_files]. rewrite Z.mul_0_l.
  destruct (Z.ltb_spec 0 (Z.of_nat (List.length channellist))) as [_|Hle].
  - destruct (render_file_sequence py_repr params
                (py_slice channellist 0 ((0 + 1) * channellimit)) Hs) as [text ->].
    reflexivity.
  - destruct channellist; [contradiction | cbn in Hle; lia].
Qed.

(** A list under FOO. *)
Lemma sequence_value_raises_witness :
  snd (write_files plain_repr 5
         (Table [("FOO", VList ["a"; "b"])] [] []) "/run/parameters" ["H1:A"] 10 0)
  = Raise TypeError.
Proof.
  apply (sequence_value_raises plain_repr
           (Table [("FOO", VList ["a"; "b"])] [] []) "/run/parameters" ["H1:A"] 10 4).
  - reflexivity.
  - discriminate.
Defined.

(** The Builder called with [foo=['a', 'b']]: the file is opened, and the
    exception comes at the line of FOO. *)
Example builder_list_value :
  let out := sample_builder 5 [("channels", "H1:A")] "cache.lcf" "/run" 10 "v2r1"
               [("foo", VList ["a"; "b"])] DEFAULTS in
  returned out = Raise TypeError
  /\ written out
     = [("/run/parameters/parameters_0.txt",
         attr_line plain_repr PARAMETER "CLUSTERING" (VStr "TIME"))].
Proof. cbv zeta. split; vm_compute; reflexivity. Qed.

(** ** The shared table *)

(** C5 (the code fails the claim): every call of the Builder that gets as
    far as the channel list leaves the cache file in DATA.FFL and the
    trigger directory in OUTPUT.DIRECTORY of the table it was given, which
    is [DEFAULTS] itself. *)
Theorem defaults_written_by_call :
  forall (float_text : string -> option string) (py_repr : string -> string)
         fuel config cachefile rundir channellimit version kwargs defaults
         params channellist,
    gather_params float_text config cachefile (path_join rundir "triggers") kwargs defaults
    = (params, Ok channellist) ->
    let out := generate_parameters_files float_text py_repr fuel config cachefile rundir
                 channellimit version kwargs defaults in
    lookup (defaults_after out) (DATA, "FFL") = Some (VStr cachefile)
    /\ lookup (defaults_after out) (OUTPUT, "DIRECTORY")
       = Some (VStr (path_join rundir "triggers")).
Proof.
  intros float_text py_repr fuel config cachefile rundir channellimit version kwargs
    defaults params channellist Hg out. subst out.
  rewrite (generate_after_gather _ _ _ _ _ _ _ _ _ _ _ _ Hg).
  destruct (gather_params_injected _ _ _ _ _ _ _ _ Hg) as [Hffl Hdir].
  destruct (restructure py_repr version params) as [params' r] eqn:Hr.
  destruct (restructure_other_groups _ _ _ _ _ Hr) as [Ho Hd].
  assert (H : lookup params' (DATA, "FFL") = Some (VStr cachefile)
              /\ lookup params' (OUTPUT, "DIRECTORY")
                 = Some (VStr (path_join rundir "triggers"))).
  { unfold lookup in *. cbn [fst snd get_group] in *. now rewrite Ho, Hd. }
  destruct r as [[]| |]; cbn [defaults_after]; try exact H.
  now destruct (write_files py_repr fuel params' _ channellist channellimit 0).
Qed.

(** A first call on the table as the module defines it. *)
Lemma defaults_written_by_call_witness :
  (lookup (defaults_after
             (sample_builder 5 [("channels", "H1:A")] "cache.lcf" "/run" 10 "v2r1"
                [] DEFAULTS)) (DATA, "FFL") = Some (VStr "cache.lcf")
   /\ lookup (defaults_after
                (sample_builder 5 [("channels", "H1:A")] "cache.lcf" "/run" 10 "v2r1"
                   [] DEFAULTS)) (OUTPUT, "DIRECTORY") = Some (VStr "/run/triggers"))
  /\ lookup DEFAULTS (DATA, "FFL") = None
  /\ lookup DEFAULTS (OUTPUT, "DIRECTORY") = None.
Proof.
  split.
  - exact (defaults_written_by_call digits_float_text plain_repr 5
             [("channels", "H1:A")] "cache.lcf" "/run" 10 "v2r1" [] DEFAULTS
             _ _ eq_refl).
  - split; reflexivity.
Defined.

(** C4 (the code fails the claim): the same call, with the same
    configuration, channels, paths, limit, version and overrides, writes
    other bytes after an earlier call than it does first: the earlier
    call's FOO, FFL and DIRECTORY are still in the table. *)
Theorem output_depends_on_earlier_call :
  let earlier :=
    sample_builder 5 [("channels", "H1:A"); ("foo", "bar")] "a.lcf" "/a" 10 "v2r1"
      [] DEFAULTS in
  let alone :=
    sample_builder 5 [("channels", "H1:B")] "b.lcf" "/b" 10 "v2r1" [] DEFAULTS in
  let after :=
    sample_builder 5 [("channels", "H1:B")] "b.lcf" "/b" 10 "v2r1" []
      (defaults_after earlier) in
  written alone <> written after
  /\ lookup (defaults_after alone) (PARAMETER, "FOO") = None
  /\ lookup (defaults_after after) (PARAMETER, "FOO") = Some (VStr "bar").
Proof.
  cbv zeta. split; [|split; vm_compute; reflexivity].
  vm_compute. intros H. discriminate H.
Qed.

(** * Further properties of the code *)

(** With [frange] or [sampling] omitted the frequency stage is not run: the
    result is that of the three durations alone. *)
Theorem frequency_stage_skipped :
  forall (frange_t sampling_t : Type)
         (frequency_bound : Z -> Z -> frange_t -> sampling_t -> res unit)
         chunk segment overlap frange sampling,
    validate_parameters frequency_bound chunk segment overlap frange None
    = validate_parameters frequency_bound chunk segment overlap None None
    /\ validate_parameters frequency_bound chunk segment overlap None sampling
       = validate_parameters frequency_bound chunk segment overlap None None.
Proof.
  intros. unfold validate_parameters. destruct frange, sampling; split; reflexivity.
Qed.

(** When checks 1 to 5 hold and the segment equals the overlap, the modulus
    of the sixth check divides by zero. *)
Theorem validate_zero_divisor_raised :
  forall (frange_t sampling_t : Type)
         (frequency_bound : Z -> Z -> frange_t -> sampling_t -> res unit)
         chunk segment overlap frange sampling,
    five_checks chunk segment overlap -> segment = overlap ->
    validate_parameters frequency_bound chunk segment overlap frange sampling
    = Raise ZeroDivisionError.
Proof.
  intros ? ? fb chunk segment overlap frange sampling (H1 & H2 & H3 & H4 & H5) ->.
  unfold validate_parameters, py_assert, py_mod.
  change (2 =? 0) with false. cbn iota.
  repeat (case_bool; cbn [negb res_bind]); try reflexivity; exfalso; lia.
Qed.

Lemma validate_zero_divisor_raised_witness :
  validate (-2) (-2) (-2) = Raise ZeroDivisionError.
Proof.
  apply (validate_zero_divisor_raised _ _ no_frequency_bound (-2) (-2) (-2) None None).
  - unfold five_checks. repeat split; try lia; discriminate.
  - reflexivity.
Defined.

(** ** The Validator on tilings *)

Section ValidatorFacts.

Variables frange_t sampling_t : Type.
Variable frequency_bound : Z -> Z -> frange_t -> sampling_t -> res unit.

Lemma validate_accepts_iff :
  forall chunk segment overlap,
    validate_parameters frequency_bound chunk segment overlap None None = Ok tt <->
    five_checks chunk segment overlap /\ segment <> overlap
    /\ (chunk - overlap) mod (segment - overlap) = 0.
Proof.
  intros chunk segment overlap.
  unfold validate_parameters, five_checks, py_assert, py_mod.
  change (2 =? 0) with false. cbn iota.
  repeat (case_bool; cbn [negb res_bind]);
    (split; [ intros HH; try discriminate; repeat split; lia
            | intros HH; try reflexivity; exfalso; lia ]).
Qed.

Lemma validate_tiling_reason :
  forall chunk segment overlap,
    five_checks chunk segment overlap -> segment <> overlap ->
    (chunk - overlap) mod (segment - overlap) <> 0 ->
    validate_parameters frequency_bound chunk segment overlap None None
    = Raise (AssertionError (msg_tiling ((chunk - overlap) mod (segment - overlap)))).
Proof.
  intros chunk segment overlap (H1 & H2 & H3 & H4 & H5) Hne Hr.
  unfold validate_parameters, py_assert, py_mod.
  change (2 =? 0) with false. cbn iota.
  repeat (case_bool; cbn [negb res_bind]); try reflexivity; exfalso; lia.
Qed.

End ValidatorFacts.

(** For a positive overlap the Validator accepts exactly the tilings: an
    even overlap of at most half the segment, and a chunk made of [k >= 1]
    segments that overlap their neighbours. *)
Theorem validate_accepts_tilings :
  forall (frange_t sampling_t : Type)
         (frequency_bound : Z -> Z -> frange_t -> sampling_t -> res unit)
         chunk segment overlap,
    0 < overlap ->
    (validate_parameters frequency_bound chunk segment overlap None None = Ok tt <->
     overlap mod 2 = 0 /\ 2 * overlap <= segment
     /\ exists k, 1 <= k /\ chunk = overlap + k * (segment - overlap)).
Proof.
  intros ? ? fb chunk segment overlap Hpos.
  rewrite validate_accepts_iff. unfold five_checks. split.
  - intros ((H1 & H2 & H3 & H4 & H5) & Hne & Hmod).
    split; [exact H4 | split; [lia|]].
    exists ((chunk - overlap) / (segment - overlap)).
    assert (Hd : 0 < segment - overlap) by lia.
    pose proof (Z.div_mod (chunk - overlap) (segment - overlap) ltac:(lia)) as Hdm.
    rewrite Hmod, Z.add_0_r in Hdm.
    split; [|lia].
    apply Z.div_le_lower_bound; lia.
  - intros (H4 & H5 & k & Hk & ->).
    assert (Hd : 0 < segment - overlap) by lia.
    repeat split; try lia.
    + nia.
    + replace (overlap + k * (segment - overlap) - overlap)
        with (k * (segment - overlap)) by lia.
      apply Z.mod_mul. lia.
Qed.

Lemma validate_accepts_tilings_witness :
  validate 10 4 2 = Ok tt.
Proof.
  apply (proj2 (validate_accepts_tilings _ _ no_frequency_bound 10 4 2 eq_refl)).
  split; [reflexivity | split; [discriminate|]].
  exists 4. split; [discriminate | reflexivity].
Defined.

(** When the sixth check fails, the remainder it reports is the excess of
    the chunk: it lies strictly between 0 and [segment - overlap], and the
    chunk shortened by it is accepted. *)
Theorem tiling_remainder_is_excess :
  forall (frange_t sampling_t : Type)
         (frequency_bound : Z -> Z -> frange_t -> sampling_t -> res unit)
         chunk segment overlap,
    five_checks chunk segment overlap -> segment <> overlap ->
    (chunk - overlap) mod (segment - overlap) <> 0 ->
    let r := (chunk - overlap) mod (segment - overlap) in
    validate_parameters frequency_bound chunk segment overlap None None
    = Raise (AssertionError (msg_tiling r))
    /\ 0 < r < segment - overlap
    /\ validate_parameters frequency_bound (chunk - r) segment overlap None None = Ok tt.
Proof.
  intros ? ? fb chunk segment overlap Hfive Hne Hr r.
  split; [now apply validate_tiling_reason|].
  destruct Hfive as (H1 & H2 & H3 & H4 & H5).
  assert (Hd : 0 < segment - overlap) by lia.
  pose proof (Z.mod_pos_bound (chunk - overlap) (segment - overlap) Hd) as Hb.
  pose proof (Z.div_mod (chunk - overlap) (segment - overlap) ltac:(lia)) as Hdm.
  fold r in Hb, Hdm, Hr.
  assert (Hq : 1 <= (chunk - overlap) / (segment - overlap))
    by (apply Z.div_le_lower_bound; lia).
  split; [lia|].
  apply validate_accepts_iff. unfold five_checks.
  repeat split; try lia.
  - nia.
  - replace (chunk - r - overlap)
      with ((chunk - overlap) / (segment - overlap) * (segment - overlap)) by lia.
    apply Z.mod_mul. lia.
Qed.

Lemma tiling_remainder_is_excess_witness :
  validate 9 4 2 = Raise (AssertionError (msg_tiling 1))
  /\ 0 < 1 < 4 - 2
  /\ validate 8 4 2 = Ok tt.
Proof.
  refine (tiling_remainder_is_excess _ _ no_frequency_bound 9 4 2 _ _ _).
  - unfold five_checks. repeat split; try lia; discriminate.
  - discriminate.
  - discriminate.
Defined.

(** ** Splitting and normalising strings *)

Lemma string_app_nil_r : forall s : string, s ++ "" = s.
Proof. induction s as [|c s IH]; cbn; [reflexivity | now rewrite IH]. Qed.

Lemma split_on_nonempty : forall sep s, split_on sep s <> [].
Proof.
  intros sep s. destruct s as [|c s]; cbn; [discriminate|].
  destruct (Ascii.eqb c sep); [discriminate|].
  destruct (split_on sep s); discriminate.
Qed.

Lemma concat_cons_nonempty :
  forall sep x (xs : list string),
    xs <> [] -> String.concat sep (x :: xs) = x ++ sep ++ String.concat sep xs.
Proof. intros sep x [|y xs] H; [contradiction | reflexivity]. Qed.

(** [sep.join(s.split(sep)) == s]; the list is never empty, and no part
    holds the separator.  The channel list of the Builder is
    [channels.split('\n')]. *)
Theorem split_on_joins_back :
  forall (sep : ascii) (s : string),
    split_on sep s <> []
    /\ String.concat (String sep "") (split_on sep s) = s
    /\ forall part, In part (split_on sep s) -> ~ In sep (list_ascii_of_string part).
Proof.
  intros sep s. split; [apply split_on_nonempty|].
  induction s as [|c s [IHj IHp]]; cbn [split_on].
  - split; [reflexivity|]. intros part [<-|[]] [].
  - destruct (Ascii.eqb_spec c sep) as [->|Hne].
    + split.
      * rewrite concat_cons_nonempty by apply split_on_nonempty.
        cbn. now rewrite IHj.
      * intros part [<-|Hin]; [intros [] | now apply IHp].
    + pose proof (split_on_nonempty sep s) as Hnil.
      destruct (split_on sep s) as [|p ps]; [contradiction|].
      split.
      * destruct ps as [|q ps].
        -- rewrite <- IHj. reflexivity.
        -- rewrite <- IHj. reflexivity.
      * intros part [<-|Hin].
        -- cbn. intros [Heq|Hin]; [congruence|].
           apply (IHp p); [now left | exact Hin].
        -- apply IHp. now right.
Qed.

Lemma join_split_hyphen :
  forall key,
    list_ascii_of_string (String.concat "" (split_on "-"%char key))
    = filter not_hyphen (list_ascii_of_string key).
Proof.
  induction key as [|c key IH]; cbn [split_on list_ascii_of_string filter].
  - reflexivity.
  - unfold not_hyphen at 1.
    pose proof (split_on_nonempty "-"%char key) as Hnil.
    destruct (Ascii.eqb c "-"%char); cbn [negb].
    + rewrite concat_cons_nonempty by exact Hnil. cbn. exact IH.
    + destruct (split_on "-"%char key) as [|p ps]; [contradiction|].
      destruct ps as [|q ps].
      * cbn in *. now rewrite IH.
      * rewrite <- IH. reflexivity.
Qed.

Lemma list_ascii_of_upper :
  forall s, list_ascii_of_string (upper s) = map upper_ascii (list_ascii_of_string s).
Proof. induction s as [|c s IH]; cbn; [reflexivity | now rewrite IH]. Qed.

Lemma upper_ascii_spec :
  forall c, is_lower (upper_ascii c) = false /\ not_hyphen (upper_ascii c) = not_hyphen c.
Proof.
  intros c. unfold upper_ascii, is_lower, not_hyphen.
  destruct c as [[] [] [] [] [] [] [] []]; vm_compute; split; reflexivity.
Qed.

Lemma upper_ascii_fixed : forall c, is_lower c = false -> upper_ascii c = c.
Proof. intros c H. unfold upper_ascii. unfold is_lower in H. now rewrite H. Qed.

(** The attribute derived from a key is the key without its hyphens and
    with its ASCII letters in upper case; it holds no hyphen and no lower
    case letter, and deriving again changes nothing: keys that differ in
    hyphens or case only are written to one attribute. *)
Theorem okey_normal_form :
  forall key,
    list_ascii_of_string (okey_of key)
    = map upper_ascii (filter not_hyphen (list_ascii_of_string key))
    /\ (forall c, In c (list_ascii_of_string (okey_of key)) ->
                  not_hyphen c = true /\ is_lower c = false)
    /\ okey_of (okey_of key) = okey_of key
    /\ okey_of (upper key) = okey_of key.
Proof.
  intros key.
  assert (Hform : forall k, list_ascii_of_string (okey_of k)
                  = map upper_ascii (filter not_hyphen (list_ascii_of_string k))).
  { intros k. unfold okey_of. now rewrite list_ascii_of_upper, join_split_hyphen. }
  assert (Hchars : forall k c, In c (list_ascii_of_string (okey_of k)) ->
                               not_hyphen c = true /\ is_lower c = false).
  { intros k c. rewrite Hform. intros Hin.
    apply in_map_iff in Hin as (c0 & <- & Hin). apply filter_In in Hin as [_ Hc0].
    destruct (upper_ascii_spec c0) as [Hl Hh]. now rewrite Hh. }
  assert (Hfix : forall l, (forall c, In c l -> not_hyphen c = true /\ is_lower c = false) ->
                           map upper_ascii (filter not_hyphen l) = l).
  { induction l as [|c l IH]; intros H; [reflexivity|]. cbn.
    destruct (H c (or_introl eq_refl)) as [-> Hl]. cbn.
    rewrite upper_ascii_fixed by exact Hl. f_equal. apply IH.
    intros c' Hc'. apply H. now right. }
  split; [apply Hform | split; [apply Hchars | split]].
  - rewrite <- (string_of_list_ascii_of_string (okey_of (okey_of key))).
    rewrite <- (string_of_list_ascii_of_string (okey_of key)) at 2.
    f_equal. rewrite Hform. apply Hfix, Hchars.
  - rewrite <- (string_of_list_ascii_of_string (okey_of (upper key))).
    rewrite <- (string_of_list_ascii_of_string (okey_of key)).
    f_equal. rewrite !Hform, list_ascii_of_upper.
    induction (list_ascii_of_string key) as [|c l IH]; [reflexivity|]. cbn.
    destruct (upper_ascii_spec c) as [Hl Hh]. rewrite Hh.
    destruct (not_hyphen c); cbn; [|exact IH].
    rewrite (upper_ascii_fixed (upper_ascii c)) by exact Hl. now f_equal.
Qed.

(** ** File names *)

Lemma str_int_inj : forall a b, str_int a = str_int b -> a = b.
Proof.
  intros a b H. unfold str_int in H.
  assert (Hnn : forall z, Z.to_int z <> Decimal.Pos Decimal.Nil
                          /\ Z.to_int z <> Decimal.Neg Decimal.Nil).
  { intros [|p|p]; cbn; split; try discriminate;
      intros [= Hp]; now apply (DecimalPos.Unsigned.to_uint_nonnil p). }
  apply (f_equal NilZero.int_of_string) in H.
  rewrite !NilZero.isi in H by apply Hnn.
  injection H as H. now apply DecimalZ.to_int_inj.
Qed.

Lemma list_ascii_of_string_app :
  forall s t, list_ascii_of_string (s ++ t)
              = (list_ascii_of_string s ++ list_ascii_of_string t)%list.
Proof. induction s as [|c s IH]; intros t; cbn; [reflexivity | now rewrite IH]. Qed.

Lemma string_app_inv_head : forall s t u : string, s ++ t = s ++ u -> t = u.
Proof. induction s as [|c s IH]; intros t u H; [exact H | injection H as H; now apply IH]. Qed.

Lemma string_app_inv_tail : forall s t u : string, s ++ u = t ++ u -> s = t.
Proof.
  intros s t u H. apply (f_equal list_ascii_of_string) in H.
  rewrite !list_ascii_of_string_app in H. apply app_inv_tail in H.
  rewrite <- (string_of_list_ascii_of_string s), <- (string_of_list_ascii_of_string t).
  now f_equal.
Qed.

Lemma parameters_path_inj :
  forall pardir i j, parameters_path pardir i = parameters_path pardir j -> i = j.
Proof.
  intros pardir i j. unfold parameters_path, path_join.
  cbn [append String.prefix Ascii.eqb Bool.eqb]. cbv iota.
  intros H. apply str_int_inj.
  destruct ((pardir =? "")%string || ends_with_slash pardir).
  - apply string_app_inv_head in H. injection H as H.
    now apply string_app_inv_tail in H.
  - apply string_app_inv_head in H. injection H as H.
    now apply string_app_inv_tail in H.
Qed.

Section Paths.

Variable float_text : string -> option string.
Variable py_repr : string -> string.

Lemma write_files_paths :
  forall params pardir channellist channellimit fuel i files parfiles,
    write_files py_repr fuel params pardir channellist channellimit i = (files, Ok parfiles) ->
    map fst files = map fst parfiles
    /\ forall j, (j < List.length parfiles)%nat ->
         nth_error (map fst parfiles) j = Some (parameters_path pardir (i + Z.of_nat j)).
Proof.
  intros params pardir channellist channellimit.
  induction fuel as [|fuel IH]; intros i files parfiles Hrun; cbn [write_files] in Hrun;
    [discriminate|].
  destruct (i * channellimit <? Z.of_nat (List.length channellist)).
  - destruct (render_file py_repr params _) as [text [[]| |]]; try discriminate.
    destruct (write_files py_repr fuel params pardir channellist channellimit (i + 1))
      as [files' [parfiles'| |]] eqn:Hrest; cbn [res_bind] in Hrun; try discriminate.
    injection Hrun as <- <-.
    destruct (IH _ _ _ Hrest) as [Hf Hn]. split.
    + cbn. now rewrite Hf.
    + intros [|j] Hj; cbn [map fst nth_error List.length] in *.
      * unfold parameters_path. now rewrite Z.add_0_r.
      * rewrite Hn by lia.
        now replace (i + 1 + Z.of_nat j) with (i + Z.of_nat (S j)) by lia.
  - injection Hrun as <- <-. split; [reflexivity|]. cbn. intros j Hj. lia.
Qed.

End Paths.

(** The files of one call are [parameters_0.txt], [parameters_1.txt], ... in
    the parameters directory, one for each pair returned and in that order;
    their paths are pairwise different, so no chunk overwrites another. *)
Theorem parameter_files_distinct :
  forall (float_text : string -> option string) (py_repr : string -> string)
         fuel config cachefile rundir channellimit version kwargs defaults parfiles,
    let out := generate_parameters_files float_text py_repr fuel config cachefile rundir
                 channellimit version kwargs defaults in
    returned out = Ok parfiles ->
    map fst (written out) = map fst parfiles
    /\ (forall j, (j < List.length parfiles)%nat ->
          nth_error (map fst parfiles) j
          = Some (parameters_path (path_join rundir "parameters") (Z.of_nat j)))
    /\ NoDup (map fst parfiles).
Proof.
  intros float_text py_repr fuel config cachefile rundir channellimit version kwargs
    defaults parfiles out Hret.
  destruct (generate_returned _ _ _ _ _ _ _ _ _ _ _ Hret)
    as (params & channellist & params' & files & _ & _ & Hw & Hout).
  subst out. rewrite Hout. cbn [written].
  destruct (write_files_paths py_repr _ _ _ _ _ _ _ _ Hw) as [Hf Hn].
  split; [exact Hf | split; [exact Hn|]].
  apply (proj2 (NoDup_nth_error (map fst parfiles))).
  unfold parfile in *.
  intros j k Hj Heq. rewrite length_map in Hj.
  rewrite (Hn j Hj) in Heq.
  assert (Hk : (k < List.length parfiles)%nat).
  { rewrite <- (length_map fst parfiles). apply nth_error_Some. rewrite <- Heq. discriminate. }
  rewrite (Hn k Hk) in Heq. injection Heq as Heq.
  apply parameters_path_inj in Heq. lia.
Qed.

Lemma parameter_files_distinct_witness :
  map fst (written (sample_builder 5 [("channels", three_channels)] "cache.lcf" "/run"
                      2 "v2r1" [] DEFAULTS))
  = ["/run/parameters/parameters_0.txt"; "/run/parameters/parameters_1.txt"]
  /\ NoDup ["/run/parameters/parameters_0.txt"; "/run/parameters/parameters_1.txt"].
Proof.
  destruct (parameter_files_distinct digits_float_text plain_repr 5
              [("channels", three_channels)] "cache.lcf" "/run" 2 "v2r1" [] DEFAULTS
              [ ("/run/parameters/parameters_0.txt", ["H1:A"; "H1:B"]);
                ("/run/parameters/parameters_1.txt", ["H1:C"]) ] eq_refl)
    as (Hf & _ & Hd).
  split; [exact Hf | exact Hd].
Defined.

(** ** Calls that return nothing *)

Section NoReturn.

Variable float_text : string -> option string.
Variable py_repr : string -> string.

Lemma reformat_range_terminates :
  forall names config, reformat_range float_text names config <> OutOfFuel.
Proof.
  intros [[range_ low_] high_] config. unfold reformat_range, getfloat.
  destruct (negb (dict_has range_ config) && dict_has low_ config); [|discriminate].
  destruct (dict_get low_ config) as [raw|]; [|discriminate].
  destruct (float_text raw); [|discriminate].
  destruct (dict_get high_ config) as [raw'|]; [|discriminate].
  destruct (float_text raw'); discriminate.
Qed.

Lemma reformat_lcf_terminates :
  forall config, reformat_lcf float_text config <> OutOfFuel.
Proof.
  intros config. unfold reformat_lcf.
  destruct (reformat_range float_text ("frequency-range", "flow", "fhigh") config)
    as [config'| |] eqn:H; cbn [res_bind]; try discriminate.
  - apply reformat_range_terminates.
  - now apply reformat_range_terminates in H.
Qed.

Lemma write_files_stuck :
  forall params pardir channellist channellimit,
    channellimit <= 0 -> channellist <> [] ->
    forall fuel i parfiles,
      0 <= i ->
      snd (write_files py_repr fuel params pardir channellist channellimit i)
      <> Ok parfiles.
Proof.
  intros params pardir channellist channellimit HL Hne.
  assert (HN : 0 < Z.of_nat (List.length channellist))
    by (destruct channellist; [contradiction | cbn; lia]).
  induction fuel as [|fuel IH]; intros i parfiles Hi; cbn [write_files];
    [discriminate|].
  destruct (Z.ltb_spec (i * channellimit) (Z.of_nat (List.length channellist)));
    [|nia].
  destruct (render_file py_repr params _) as [text [[]| |]]; try discriminate.
  specialize (IH (i + 1)).
  destruct (write_files py_repr fuel params pardir channellist channellimit (i + 1))
    as [files' [parfiles'| |]]; cbn [snd res_bind] in *; try discriminate.
  exfalso. apply (IH parfiles'); [lia | reflexivity].
Qed.

Lemma write_files_endless :
  forall params pardir channellist channellimit,
    channellimit <= 0 -> channellist <> [] -> all_scalar params = true ->
    forall fuel i,
      0 <= i ->
      exists files,
        write_files py_repr fuel params pardir channellist channellimit i
        = (files, OutOfFuel)
        /\ List.length files = fuel.
Proof.
  intros params pardir channellist channellimit HL Hne Hs.
  assert (HN : 0 < Z.of_nat (List.length channellist))
    by (destruct channellist; [contradiction | cbn; lia]).
  induction fuel as [|fuel IH]; intros i Hi; cbn [write_files].
  - now exists [].
  - destruct (Z.ltb_spec (i * channellimit) (Z.of_nat (List.length channellist)));
      [|nia].
    destruct (render_file_scalar py_repr params
                (py_slice channellist (i * channellimit) ((i + 1) * channellimit)) Hs)
      as [text ->].
    destruct (IH (i + 1) ltac:(lia)) as (files & -> & Hlen).
    eexists. split; [reflexivity|]. cbn. now rewrite Hlen.
Qed.

End NoReturn.

(** A configuration without a [channels] option: the Builder raises
    [KeyError('channels')], unless reformatting the ranges raised first; in
    both cases the table is left as it was and no file is written. *)
Theorem missing_channels_raises :
  forall (float_text : string -> option string) (py_repr : string -> string)
         fuel config cachefile rundir channellimit version kwargs defaults,
    dict_get "channels" config = None ->
    let out := generate_parameters_files float_text py_repr fuel config cachefile rundir
                 channellimit version kwargs defaults in
    defaults_after out = defaults
    /\ written out = []
    /\ ((exists config', reformat_lcf float_text config = Ok config'
                         /\ returned out = Raise (KeyError "channels"))
        \/ (exists e, reformat_lcf float_text config = Raise e
                      /\ returned out = Raise e)).
Proof.
  intros float_text py_repr fuel config cachefile rundir channellimit version kwargs
    defaults Hc out. subst out.
  unfold generate_parameters_files, gather_params.
  pose proof (reformat_lcf_terminates float_text config) as Hterm.
  destruct (reformat_lcf float_text config) as [config'|e|] eqn:Hlcf;
    [| |contradiction].
  - apply reformat_lcf_channels in Hlcf. unfold dict_pop.
    rewrite Hlcf, Hc. cbn. repeat split. left. now exists config'.
  - cbn. repeat split. right. now exists e.
Qed.

Lemma missing_channels_raises_witness :
  returned (sample_builder 5 [("frametype", "H1_R")] "cache.lcf" "/run" 10 "v2r1"
              [] DEFAULTS) = Raise (KeyError "channels")
  /\ defaults_after (sample_builder 5 [("frametype", "H1_R")] "cache.lcf" "/run" 10
                       "v2r1" [] DEFAULTS) = DEFAULTS.
Proof.
  destruct (missing_channels_raises digits_float_text plain_repr 5
              [("frametype", "H1_R")] "cache.lcf" "/run" 10 "v2r1" [] DEFAULTS eq_refl)
    as (Hd & _ & _).
  split; [reflexivity | exact Hd].
Defined.

(** A channel limit of zero or less: the loop test [i * channellimit <
    len(channellist)] stays true, so the Builder never returns a list,
    whatever the fuel; when the parameters can all be written, the loop
    goes on writing a file at every round. *)
Theorem nonpositive_limit_never_returns :
  forall (float_text : string -> option string) (py_repr : string -> string)
         channellimit,
    channellimit <= 0 ->
    (forall fuel config cachefile rundir version kwargs defaults parfiles,
        returned (generate_parameters_files float_text py_repr fuel config cachefile
                    rundir channellimit version kwargs defaults) <> Ok parfiles)
    /\ (forall params pardir channellist fuel,
          channellist <> [] -> all_scalar params = true ->
          exists files,
            write_files py_repr fuel params pardir channellist channellimit 0
            = (files, OutOfFuel)
            /\ List.length files = fuel).
Proof.
  intros float_text py_repr channellimit HL. split.
  - intros fuel config cachefile rundir version kwargs defaults parfiles Hret.
    destruct (generate_returned _ _ _ _ _ _ _ _ _ _ _ Hret)
      as (params & channellist & params' & files & Hg & _ & Hw & _).
    destruct (gather_params_channels _ _ _ _ _ _ _ _ Hg) as (channels & _ & ->).
    apply (write_files_stuck py_repr params' (path_join rundir "parameters")
             (split_on "010"%char channels) channellimit HL
             (split_on_nonempty _ _) fuel 0 parfiles (Z.le_refl 0)).
    now rewrite Hw.
  - intros params pardir channellist fuel Hne Hs.
    now apply write_files_endless.
Qed.

Lemma nonpositive_limit_never_returns_witness :
  exists files,
    write_files plain_repr 7 DEFAULTS "/run/parameters" ["H1:A"] 0 0 = (files, OutOfFuel)
    /\ List.length files = 7%nat.
Proof.
  apply (proj2 (nonpositive_limit_never_returns digits_float_text plain_repr 0
                  (Z.le_refl 0))
           DEFAULTS "/run/parameters" ["H1:A"] 7%nat).
  - discriminate.
  - reflexivity.
Defined.

(** ** Reformatting twice *)

Lemma dict_del_absent :
  forall (V : Type) (d : dict V) k, dict_get k d = None -> dict_del k d = d.
Proof.
  intros V d k. unfold dict_del.
  induction d as [|[k' v] d IH]; cbn [dict_get filter fst]; [reflexivity|].
  destruct (String.eqb_spec k' k); [discriminate|]. cbn [negb]. intros H. now rewrite IH.
Qed.

Lemma dict_has_false : forall (V : Type) (d : dict V) k,
  dict_get k d = None -> dict_has k d = false.
Proof. intros V d k H. unfold dict_has. now rewrite H. Qed.

Section Settled.

Variable float_text : string -> option string.

Lemma reformat_range_removes :
  forall range_ low_ high_ config config',
    reformat_range float_text (range_, low_, high_) config = Ok config' ->
    dict_get low_ config' = None /\ dict_get high_ config' = None.
Proof.
  intros range_ low_ high_ config config' Hrun. unfold reformat_range in Hrun.
  match type of Hrun with
  | res_bind ?first _ = _ => destruct first as [c| |]
  end; cbn [res_bind] in Hrun; try discriminate.
  injection Hrun as <-. split.
  - destruct (string_dec low_ high_) as [->|Hne].
    + apply dict_get_del_same.
    + now rewrite dict_get_del_other, dict_get_del_same.
  - apply dict_get_del_same.
Qed.

End Settled.

(** Reformatting settles the configuration: after it the four low and high
    options are gone, every option other than the two ranges and those four
    is as it was, a range that was there is as it was, and reformatting the
    result again changes nothing.  (The code reformats the caller's
    configuration object in place, so a second call starts from the
    result.) *)
Theorem reformat_lcf_settles :
  forall (float_text : string -> option string) config config',
    reformat_lcf float_text config = Ok config' ->
    (forall key, In key ["flow"; "fhigh"; "qlow"; "qhigh"] -> dict_get key config' = None)
    /\ (forall key, ~ In key ["frequency-range"; "q-range"; "flow"; "fhigh"; "qlow"; "qhigh"] ->
                    dict_get key config' = dict_get key config)
    /\ (forall key value, In key ["frequency-range"; "q-range"] ->
                          dict_get key config = Some value ->
                          dict_get key config' = Some value)
    /\ reformat_lcf float_text config' = Ok config'.
Proof.
  intros float_text config config' Hrun. unfold reformat_lcf in Hrun.
  destruct (reformat_range float_text ("frequency-range", "flow", "fhigh") config)
    as [config1| |] eqn:H1; try discriminate.
  cbn [res_bind] in Hrun.
  destruct (reformat_range_removes _ _ _ _ _ _ H1) as [Hflow Hfhigh].
  destruct (reformat_range_removes _ _ _ _ _ _ Hrun) as [Hqlow Hqhigh].
  assert (Hgone : forall key, In key ["flow"; "fhigh"; "qlow"; "qhigh"] ->
                              dict_get key config' = None).
  { intros key [<-|[<-|[<-|[<-|[]]]]]; try assumption.
    - now rewrite (reformat_range_get_other _ _ _ _ _ _ "flow" Hrun) by discriminate.
    - now rewrite (reformat_range_get_other _ _ _ _ _ _ "fhigh" Hrun) by discriminate. }
  split; [exact Hgone | split; [|split]].
  - intros key Hkey.
    assert (H : key <> "frequency-range" /\ key <> "q-range" /\ key <> "flow"
                /\ key <> "fhigh" /\ key <> "qlow" /\ key <> "qhigh").
    { repeat split; intros ->; apply Hkey; cbn; tauto. }
    destruct H as (K1 & K2 & K3 & K4 & K5 & K6).
    rewrite (reformat_range_get_other _ _ _ _ _ _ key Hrun) by assumption.
    now rewrite (reformat_range_get_other _ _ _ _ _ _ key H1) by assumption.
  - intros key value Hkey Hv.
    assert (Hstep : forall range_ low_ high_ c c' k v,
               reformat_range float_text (range_, low_, high_) c = Ok c' ->
               k <> low_ -> k <> high_ -> dict_get k c = Some v -> dict_get k c' = Some v).
    { intros range_ low_ high_ c c' k v Hr Hl Hh Hk. unfold reformat_range in Hr.
      destruct (string_dec k range_) as [->|Hne].
      - unfold dict_has in Hr. rewrite Hk in Hr. cbn in Hr. injection Hr as <-.
        now rewrite !dict_get_del_other.
      - now rewrite (reformat_range_get_other _ _ _ _ _ _ k Hr). }
    destruct Hkey as [<-|[<-|[]]].
    + apply (Hstep _ _ _ _ _ _ _ Hrun); try discriminate.
      apply (Hstep _ _ _ _ _ _ _ H1); try discriminate. exact Hv.
    + apply (Hstep _ _ _ _ _ _ _ Hrun); try discriminate.
      apply (Hstep _ _ _ _ _ _ _ H1); try discriminate. exact Hv.
  - rewrite reformat_lcf_silent.
    + rewrite (dict_del_absent _ config' "flow") by (apply Hgone; cbn; tauto).
      rewrite (dict_del_absent _ config' "fhigh") by (apply Hgone; cbn; tauto).
      rewrite (dict_del_absent _ config' "qlow") by (apply Hgone; cbn; tauto).
      now rewrite (dict_del_absent _ config' "qhigh") by (apply Hgone; cbn; tauto).
    + intros range_ low_ high_ [[= <- <- <-]|[[= <- <- <-]|[]]]; right;
        apply dict_has_false, Hgone; cbn; tauto.
Qed.

Lemma reformat_lcf_settles_witness :
  reformat_lcf digits_float_text
    [("channels", "H1:A"); ("frequency-range", "10.0 100.0")]
  = Ok [("channels", "H1:A"); ("frequency-range", "10.0 100.0")].
Proof.
  exact (proj2 (proj2 (proj2
           (reformat_lcf_settles digits_float_text
              [("channels", "H1:A"); ("flow", "10"); ("fhigh", "100")]
              [("channels", "H1:A"); ("frequency-range", "10.0 100.0")] eq_refl)))).
Defined.

(** ** What a call leaves alone *)

Lemma target_of_groups :
  forall key, target_of key = (DATA, "SAMPLEFREQUENCY") \/ fst (target_of key) = PARAMETER.
Proof.
  intros key. unfold target_of, OMICRON_PARAM_MAP.
  destruct (key =? "sample-frequency")%string; [now left | now right].
Qed.

Section Frame.

Variable float_text : string -> option string.
Variable py_repr : string -> string.

Lemma gather_params_frame :
  forall config cachefile trigdir kwargs defaults params r target,
    gather_params float_text config cachefile trigdir kwargs defaults = (params, r) ->
    fst target <> PARAMETER ->
    target <> (DATA, "FFL") -> target <> (OUTPUT, "DIRECTORY") ->
    target <> (DATA, "SAMPLEFREQUENCY") ->
    lookup params target = lookup defaults target.
Proof.
  intros config cachefile trigdir kwargs defaults params r target Hrun Hp Hf Hd Hs.
  unfold gather_params in Hrun.
  destruct (reformat_lcf float_text config) as [config'| |];
    try (now injection Hrun as <- _).
  destruct (dict_pop "channels" config') as [cpparams [channels| |]];
    try (now injection Hrun as <- _).
  injection Hrun as <- _.
  assert (Hkeys : forall key, target_of key <> target).
  { intros key Heq. destruct (target_of_groups key) as [H|H]; congruence. }
  rewrite !set_params_untouched by exact Hkeys.
  unfold lookup. destruct target as [[] attr]; cbn [fst snd get_group with_group] in *.
  - now contradiction Hp.
  - apply dict_get_set_other. congruence.
  - apply dict_get_set_other. congruence.
Qed.

End Frame.

(** The Builder writes nothing into OUTPUT but DIRECTORY and nothing into
    DATA but FFL and SAMPLEFREQUENCY: every other attribute of the two
    groups is after the call what it was before, whatever the configuration
    and the keyword arguments hold and however the call ends (a [products]
    option goes to PARAMETER.PRODUCTS, not to OUTPUT.PRODUCTS). *)
Theorem output_and_data_kept :
  forall (float_text : string -> option string) (py_repr : string -> string)
         fuel config cachefile rundir channellimit version kwargs defaults target,
    fst target <> PARAMETER ->
    target <> (DATA, "FFL") -> target <> (OUTPUT, "DIRECTORY") ->
    target <> (DATA, "SAMPLEFREQUENCY") ->
    lookup (defaults_after
              (generate_parameters_files float_text py_repr fuel config cachefile rundir
                 channellimit version kwargs defaults)) target
    = lookup defaults target.
Proof.
  intros float_text py_repr fuel config cachefile rundir channellimit version kwargs
    defaults target Hp Hf Hd Hs.
  unfold generate_parameters_files.
  destruct (gather_params float_text config cachefile _ kwargs defaults)
    as [params r] eqn:Hg.
  pose proof (gather_params_frame _ _ _ _ _ _ _ _ _ Hg Hp Hf Hd Hs) as Hparams.
  destruct r as [channellist| |]; cbn [defaults_after]; try exact Hparams.
  destruct (restructure py_repr version params) as [params' r'] eqn:Hr.
  destruct (restructure_other_groups _ _ _ _ _ Hr) as [Ho Hdat].
  assert (H : lookup params' target = lookup defaults target).
  { rewrite <- Hparams. unfold lookup. destruct target as [[] attr];
      cbn [fst snd get_group] in *; congruence. }
  destruct r' as [[]| |]; cbn [defaults_after]; try exact H.
  now destruct (write_files py_repr fuel params' _ channellist channellimit 0).
Qed.

Lemma output_and_data_kept_witness :
  lookup (defaults_after
            (sample_builder 5 [("channels", "H1:A"); ("products", "triggers html")]
               "cache.lcf" "/run" 10 "v2r1" [("verbosity", VInt 0)] DEFAULTS))
         (OUTPUT, "PRODUCTS")
  = Some (VStr "triggers").
Proof.
  exact (output_and_data_kept digits_float_text plain_repr 5
           [("channels", "H1:A"); ("products", "triggers html")]
           "cache.lcf" "/run" 10 "v2r1" [("verbosity", VInt 0)] DEFAULTS
           (OUTPUT, "PRODUCTS")
           ltac:(discriminate) ltac:(discriminate) ltac:(discriminate)
           ltac:(discriminate)).
Defined.

(** ** One value for each attribute *)

Section Unique.

Variable V : Type.
Implicit Types (d : dict V).

Lemma dict_set_keys :
  forall d k v k', In k' (map fst (dict_set k v d)) -> k' = k \/ In k' (map fst d).
Proof.
  induction d as [|[k0 v0] d IH]; intros k v k'; cbn.
  - intros [<-|[]]. now left.
  - destruct (String.eqb_spec k0 k) as [->|Hne]; cbn.
    + intros [<-|H]; [now left | now right; right].
    + intros [<-|H]; [now right; left|].
      destruct (IH _ _ _ H); [now left | now right; right].
Qed.

Lemma dict_set_unique :
  forall d k v, NoDup (map fst d) -> NoDup (map fst (dict_set k v d)).
Proof.
  induction d as [|[k0 v0] d IH]; intros k v Hd; cbn.
  - constructor; [intros [] | constructor].
  - inversion Hd as [|? ? Hnotin Hd']; subst.
    destruct (String.eqb_spec k0 k) as [->|Hne]; cbn.
    + now constructor.
    + constructor; [|now apply IH].
      intros Hin. apply dict_set_keys in Hin as [->|Hin]; [now apply Hne | now apply Hnotin].
Qed.

Lemma dict_del_keys :
  forall d k k', In k' (map fst (dict_del k d)) -> In k' (map fst d).
Proof.
  intros d k k' H. apply in_map_iff in H as ([k0 v0] & <- & Hin).
  apply filter_In in Hin as [Hin _]. apply in_map_iff. now exists (k0, v0).
Qed.

Lemma dict_del_unique :
  forall d k, NoDup (map fst d) -> NoDup (map fst (dict_del k d)).
Proof.
  unfold dict_del. induction d as [|[k0 v0] d IH]; intros k Hd; cbn [filter map fst].
  - constructor.
  - inversion Hd as [|? ? Hnotin Hd']; subst.
    destruct (negb (k0 =? k)%string); cbn [map fst]; [|now apply IH].
    constructor; [|now apply IH].
    intros Hin. apply Hnotin. now apply (dict_del_keys d k).
Qed.

Lemma dict_setdefault_unique :
  forall d k v, NoDup (map fst d) -> NoDup (map fst (dict_setdefault k v d)).
Proof.
  intros d k v Hd. unfold dict_setdefault.
  destruct (dict_has k d); [exact Hd | now apply dict_set_unique].
Qed.

End Unique.

Lemma with_group_unique :
  forall g f params,
    (forall d, NoDup (map fst d) -> NoDup (map fst (f d))) ->
    unique_keys params -> unique_keys (with_group g f params).
Proof.
  intros g f params Hf Hu g'. destruct (group_eq_dec g' g) as [->|Hne].
  - rewrite get_group_with_group_same. apply Hf, Hu.
  - rewrite get_group_with_group_other by exact Hne. apply Hu.
Qed.

Lemma set_param_unique :
  forall params item, unique_keys params -> unique_keys (set_param params item).
Proof.
  intros params [key val] Hu. unfold set_param.
  destruct (OMICRON_PARAM_MAP key) as [[g attr]|].
  - apply with_group_unique; [intros d; apply dict_set_unique | exact Hu].
  - destruct (is_unset val); (apply with_group_unique; [|exact Hu]); intros d.
    + apply dict_del_unique.
    + apply dict_set_unique.
Qed.

Lemma set_params_unique :
  forall d params, unique_keys params -> unique_keys (set_params d params).
Proof.
  unfold set_params. induction d as [|item d IH]; intros params Hu; cbn [fold_left];
    [exact Hu|].
  apply IH. now apply set_param_unique.
Qed.

Section UniqueBuilder.

Variable float_text : string -> option string.
Variable py_repr : string -> string.

Lemma restructure_timing_unique :
  forall p p' r,
    restructure_timing py_repr p = (p', r) ->
    NoDup (map fst p) -> NoDup (map fst p').
Proof.
  intros p p' r Hrun Hp. unfold restructure_timing, dict_pop in Hrun.
  destruct (dict_get "CHUNKDURATION" p) as [chunk|]; cbn iota beta in Hrun;
    [|now injection Hrun as <- _].
  destruct (dict_get "SEGMENTDURATION" _) as [segment|]; cbn iota beta in Hrun;
    [|injection Hrun as <- _; now apply dict_set_unique, dict_del_unique].
  destruct (dict_get "OVERLAPDURATION" _) as [overlap|]; cbn iota beta in Hrun;
    injection Hrun as <- _.
  - apply dict_setdefault_unique, dict_set_unique.
    now do 2 apply dict_del_unique; apply dict_set_unique, dict_del_unique.
  - now apply dict_del_unique, dict_set_unique, dict_del_unique.
Qed.

Lemma restructure_unique :
  forall version params params' r,
    restructure py_repr version params = (params', r) ->
    unique_keys params -> unique_keys params'.
Proof.
  intros version params params' r Hrun Hu. unfold restructure in Hrun.
  destruct (version_ge_v2r2 version); [|now injection Hrun as <- _].
  destruct (restructure_timing py_repr (parameter_group params)) as [p r0] eqn:Hp.
  injection Hrun as <- _.
  apply (with_group_unique PARAMETER (fun _ => p) params); [|exact Hu].
  intros _ _. apply (restructure_timing_unique _ _ _ Hp (Hu PARAMETER)).
Qed.

Lemma gather_params_unique :
  forall config cachefile trigdir kwargs defaults params r,
    gather_params float_text config cachefile trigdir kwargs defaults = (params, r) ->
    unique_keys defaults -> unique_keys params.
Proof.
  intros config cachefile trigdir kwargs defaults params r Hrun Hu.
  unfold gather_params in Hrun.
  destruct (reformat_lcf float_text config) as [config'| |];
    try (now injection Hrun as <- _).
  destruct (dict_pop "channels" config') as [cpparams [channels| |]];
    try (now injection Hrun as <- _).
  injection Hrun as <- _.
  do 2 apply set_params_unique.
  apply (with_group_unique OUTPUT (dict_set "DIRECTORY" (VStr trigdir))
           (with_group DATA (dict_set "FFL" (VStr cachefile)) defaults));
    [intros d; apply dict_set_unique|].
  apply (with_group_unique DATA (dict_set "FFL" (VStr cachefile)) defaults);
    [intros d; apply dict_set_unique | exact Hu].
Qed.

End UniqueBuilder.

(** The Builder keeps the names of each group of the table different from
    one another, however it ends: an attribute never has two values, even
    after many calls on the shared table. *)
Theorem attribute_names_stay_unique :
  forall (float_text : string -> option string) (py_repr : string -> string)
         fuel config cachefile rundir channellimit version kwargs defaults,
    unique_keys defaults ->
    unique_keys (defaults_after
                   (generate_parameters_files float_text py_repr fuel config cachefile
                      rundir channellimit version kwargs defaults)).
Proof.
  intros float_text py_repr fuel config cachefile rundir channellimit version kwargs
    defaults Hu.
  unfold generate_parameters_files.
  destruct (gather_params float_text config cachefile _ kwargs defaults)
    as [params r] eqn:Hg.
  pose proof (gather_params_unique _ _ _ _ _ _ _ _ Hg Hu) as Hparams.
  destruct r as [channellist| |]; cbn [defaults_after]; try exact Hparams.
  destruct (restructure py_repr version params) as [params' r'] eqn:Hr.
  pose proof (restructure_unique _ _ _ _ _ Hr Hparams) as H.
  destruct r' as [[]| |]; cbn [defaults_after]; try exact H.
  now destruct (write_files py_repr fuel params' _ channellist channellimit 0).
Qed.

Lemma DEFAULTS_unique : unique_keys DEFAULTS.
Proof.
  intros []; cbn; repeat constructor; cbn; intuition discriminate.
Qed.

Lemma attribute_names_stay_unique_witness :
  unique_keys (defaults_after
                 (sample_builder 5 timed_config "cache.lcf" "/run" 2 "v2r2"
                    [("chunkduration", VInt 128)] DEFAULTS)).
Proof.
  exact (attribute_names_stay_unique digits_float_text plain_repr 5 timed_config
           "cache.lcf" "/run" 2 "v2r2" [("chunkduration", VInt 128)] DEFAULTS
           DEFAULTS_unique).
Defined.

(** ** The text of a file *)

Section Text.

Variable float_text : string -> option string.
Variable py_repr : string -> string.

Lemma render_file_text :
  forall params channels text,
    render_file py_repr params channels = (text, Ok tt) ->
    text = fst (render_groups py_repr [PARAMETER; OUTPUT; DATA] params)
           ++ String.concat "" (map channel_line channels).
Proof.
  intros params channels text Hrun. unfold render_file in Hrun.
  destruct (render_groups py_repr [PARAMETER; OUTPUT; DATA] params) as [head [[]| |]];
    try discriminate.
  now injection Hrun as <-.
Qed.

End Text.

(** The files of one call differ in their channel lines only: each is one
    text, the same for all, followed by a line [DATA CHANNELS <channel>]
    for each channel of its subset, in order. *)
Theorem files_share_parameters :
  forall (float_text : string -> option string) (py_repr : string -> string)
         fuel config cachefile rundir channellimit version kwargs defaults parfiles,
    let out := generate_parameters_files float_text py_repr fuel config cachefile rundir
                 channellimit version kwargs defaults in
    returned out = Ok parfiles ->
    exists head,
      forall pfile channels,
        In (pfile, channels) parfiles ->
        In (pfile, head ++ String.concat "" (map channel_line channels)) (written out).
Proof.
  intros float_text py_repr fuel config cachefile rundir channellimit version kwargs
    defaults parfiles out Hret.
  destruct (generate_returned _ _ _ _ _ _ _ _ _ _ _ Hret)
    as (params & channellist & params' & files & _ & _ & Hw & Hout).
  subst out. rewrite Hout. cbn [written].
  exists (fst (render_groups py_repr [PARAMETER; OUTPUT; DATA] params')).
  intros pfile channels Hin.
  destruct (write_files_rendered py_repr _ _ _ _ _ _ _ _ Hw pfile channels Hin)
    as (text & Hfile & Hrender).
  now rewrite <- (render_file_text py_repr _ _ _ Hrender).
Qed.

Lemma files_share_parameters_witness :
  exists head,
    forall pfile channels,
      In (pfile, channels)
         [ ("/run/parameters/parameters_0.txt", ["H1:A"; "H1:B"]);
           ("/run/parameters/parameters_1.txt", ["H1:C"]) ] ->
      In (pfile, head ++ String.concat "" (map channel_line channels))
         (written (sample_builder 5 [("channels", three_channels)] "cache.lcf" "/run"
                     2 "v2r1" [] DEFAULTS)).
Proof.
  exact (files_share_parameters digits_float_text plain_repr 5
           [("channels", three_channels)] "cache.lcf" "/run" 2 "v2r1" [] DEFAULTS
           [ ("/run/parameters/parameters_0.txt", ["H1:A"; "H1:B"]);
             ("/run/parameters/parameters_1.txt", ["H1:C"]) ] eq_refl).
Defined.

Lemma string_length_app :
  forall s t, String.length (s ++ t) = (String.length s + String.length t)%nat.
Proof. induction s as [|c s IH]; intros t; cbn; [reflexivity | now rewrite IH]. Qed.

Lemma spaces_length : forall n, String.length (spaces n) = n.
Proof. induction n as [|n IH]; cbn; [reflexivity | now rewrite IH]. Qed.

Lemma ljust_length :
  forall width s, String.length (ljust width s) = Nat.max width (String.length s).
Proof.
  intros width s. unfold ljust. rewrite string_length_app, spaces_length. lia.
Qed.

Lemma prefix_app : forall x y, String.prefix x (x ++ y) = true.
Proof.
  induction x as [|c x IH]; intros y; cbn.
  - destruct y; [|reflexivity]. now destruct (string_dec "" "").
  - destruct (Ascii.ascii_dec c c); [apply IH | congruence].
Qed.

(** The columns of a line: for an attribute name of at most 16 characters
    the value starts after 28 characters (the group in 10, a space, the
    name in 16, a space); a longer name pushes the value to the right by
    its excess, it is never cut. *)
Theorem attr_line_columns :
  forall (py_repr : string -> string) g key val,
    exists head,
      attr_line py_repr g key val = head ++ py_str py_repr val ++ nl
      /\ String.length head = (12 + Nat.max 16 (String.length key))%nat
      /\ String.prefix (ljust 10 (group_name g) ++ " " ++ key) head = true.
Proof.
  intros py_repr g key val.
  exists (ljust 10 (group_name g) ++ " " ++ ljust 16 key ++ " ").
  split; [|split].
  - unfold attr_line. now rewrite !string_app_assoc.
  - rewrite !string_length_app, !ljust_length.
    destruct g; cbn [group_name String.length]; lia.
  - replace (ljust 10 (group_name g) ++ " " ++ ljust 16 key ++ " ")
      with ((ljust 10 (group_name g) ++ " " ++ key)
            ++ spaces (16 - String.length key) ++ " ").
    + apply prefix_app.
    + unfold ljust. now rewrite !string_app_assoc.
Qed.

(** ** The last write to an attribute *)

Lemma set_params_other :
  forall (d : dict value) params target,
    (forall key val, In (key, val) d -> target_of key <> target) ->
    lookup (set_params d params) target = lookup params target.
Proof.
  unfold set_params.
  induction d as [|[key v] d IH]; intros params target Hne; cbn [fold_left];
    [reflexivity|].
  rewrite IH by (intros k' v' H; apply (Hne k' v'); now right).
  apply set_param_other. apply (Hne key v). now left.
Qed.

Lemma set_param_written :
  forall params key val,
    lookup (set_param params (key, val)) (target_of key) = written_value key val.
Proof.
  intros params key val. unfold set_param, target_of, written_value.
  destruct (OMICRON_PARAM_MAP key) as [[g attr]|].
  - apply lookup_set_same.
  - destruct (is_unset val).
    + unfold lookup. cbn [fst snd]. rewrite get_group_with_group_same.
      apply dict_get_del_same.
    + apply lookup_set_same.
Qed.

(** Of the items written to one attribute, the last decides: after it the
    attribute holds its value, or is absent when the value is an unset
    token, whatever the table and the earlier items held. *)
Theorem last_writer_decides :
  forall (before after : dict value) key val params,
    (forall key' val', In (key', val') after -> target_of key' <> target_of key) ->
    lookup (set_params (before ++ (key, val) :: after)%list params) (target_of key)
    = written_value key val.
Proof.
  intros before after key val params Hafter.
  unfold set_params. rewrite fold_left_app. cbn [fold_left].
  fold (set_params after (set_param (fold_left set_param before params) (key, val))).
  rewrite set_params_other by exact Hafter.
  apply set_param_written.
Qed.

Lemma last_writer_decides_witness :
  lookup (set_params [("clustering", VStr "TIME"); ("clustering", VStr "none");
                      ("q-range", VStr "4 100")] DEFAULTS)
         (PARAMETER, "CLUSTERING")
  = None.
Proof.
  refine (last_writer_decides [("clustering", VStr "TIME")]
            [("q-range", VStr "4 100")] "clustering" (VStr "none") DEFAULTS _).
  intros key' val' [[= <- <-]|[]]. discriminate.
Defined.

(** ** A version step that fails half way *)

(** For a version from v2r2, a table with CHUNKDURATION and without
    SEGMENTDURATION: the Builder raises [KeyError('SEGMENTDURATION')] after
    it has moved CHUNKDURATION to PSDLENGTH, and the table, which is the
    module's, stays that way. *)
Theorem failed_step_keeps_renaming :
  forall (float_text : string -> option string) (py_repr : string -> string)
         fuel config cachefile rundir channellimit version kwargs defaults
         params channellist chunk,
    gather_params float_text config cachefile (path_join rundir "triggers") kwargs defaults
    = (params, Ok channellist) ->
    version_ge_v2r2 version = true ->
    lookup params (PARAMETER, "CHUNKDURATION") = Some chunk ->
    lookup params (PARAMETER, "SEGMENTDURATION") = None ->
    let out := generate_parameters_files float_text py_repr fuel config cachefile rundir
                 channellimit version kwargs defaults in
    returned out = Raise (KeyError "SEGMENTDURATION")
    /\ written out = []
    /\ lookup (defaults_after out) (PARAMETER, "CHUNKDURATION") = None
    /\ lookup (defaults_after out) (PARAMETER, "PSDLENGTH") = Some chunk.
Proof.
  intros float_text py_repr fuel config cachefile rundir channellimit version kwargs
    defaults params channellist chunk Hg Hv Hc Hs out. subst out.
  rewrite (generate_after_gather _ _ _ _ _ _ _ _ _ _ _ _ Hg).
  unfold lookup in Hc, Hs. cbn [fst snd get_group] in Hc, Hs.
  unfold restructure. rewrite Hv.
  unfold restructure_timing, dict_pop. rewrite Hc. cbn iota beta.
  rewrite dict_get_set_other, dict_get_del_other, Hs by discriminate.
  cbn. unfold lookup. cbn. repeat split.
  - now rewrite dict_get_set_other, dict_get_del_same by discriminate.
  - apply dict_get_set_same.
Qed.

Lemma failed_step_keeps_renaming_witness :
  let out := sample_builder 5 [("channels", "H1:A"); ("chunkduration", "64")]
               "cache.lcf" "/run" 10 "v2r2" [] DEFAULTS in
  returned out = Raise (KeyError "SEGMENTDURATION")
  /\ written out = []
  /\ lookup (defaults_after out) (PARAMETER, "CHUNKDURATION") = None
  /\ lookup (defaults_after out) (PARAMETER, "PSDLENGTH") = Some (VStr "64").
Proof.
  exact (failed_step_keeps_renaming digits_float_text plain_repr 5
           [("channels", "H1:A"); ("chunkduration", "64")]
           "cache.lcf" "/run" 10 "v2r2" [] DEFAULTS _ _ (VStr "64")
           eq_refl eq_refl eq_refl eq_refl).
Defined.

(** ** The version test *)

(** [omicron_version >= 'v2r2'] reads the version character by character:
    whatever follows, a version that starts with [v2r2], [v2r3] or [v3]
    passes, and one that starts with [v1] or [v2r1] does not, so that
    [v10r1] and [v2r10] count as older than [v2r2]. *)
Theorem version_test_by_characters :
  forall rest,
    version_ge_v2r2 ("v2r2" ++ rest) = true
    /\ version_ge_v2r2 ("v2r3" ++ rest) = true
    /\ version_ge_v2r2 ("v3" ++ rest) = true
    /\ version_ge_v2r2 ("v1" ++ rest) = false
    /\ version_ge_v2r2 ("v2r1" ++ rest) = false.
Proof.
  intros rest. unfold version_ge_v2r2, String.leb.
  repeat split; try reflexivity.
  cbn. now destruct rest.
Qed.

(** ** The discarded options *)

Section Discarded.

Variable V : Type.
Implicit Types (d : dict V).






End Discarded.

Section DiscardedBuilder.

Variable float_text : string -> option string.
Variable py_repr : string -> string.




End DiscardedBuilder.



(** ** The channels returned *)

(** When the Builder returns, it returns at least one pair, and the
    channels of the pairs, in order and joined by newlines, are the
    [channels] option of the configuration as it was written; none of them
    holds a newline. *)
Theorem returned_channels_join_back :
  forall (float_text : string -> option string) (py_repr : string -> string)
         fuel config cachefile rundir channellimit version kwargs defaults parfiles,
    returned (generate_parameters_files float_text py_repr fuel config cachefile rundir
                channellimit version kwargs defaults) = Ok parfiles ->
    exists channels,
      dict_get "channels" config = Some channels
      /\ String.concat nl (List.concat (map snd parfiles)) = channels
      /\ parfiles <> []
      /\ forall channel, In channel (List.concat (map snd parfiles)) ->
                         ~ In "010"%char (list_ascii_of_string channel).
Proof.
  intros float_text py_repr fuel config cachefile rundir channellimit version kwargs
    defaults parfiles Hret.
  destruct (generate_returned _ _ _ _ _ _ _ _ _ _ _ Hret)
    as (params & channellist & params' & files & Hg & _ & Hw & _).
  destruct (gather_params_channels _ _ _ _ _ _ _ _ Hg) as (channels & Hc & ->).
  assert (HL : 0 < channellimit).
  { destruct (Z.lt_ge_cases 0 channellimit) as [H|H]; [exact H | exfalso].
    apply (write_files_stuck py_repr params' (path_join rundir "parameters")
             (split_on "010"%char channels) channellimit H
             (split_on_nonempty _ _) fuel 0 parfiles (Z.le_refl 0)).
    now rewrite Hw. }
  destruct (write_files_partitions _ _ _ _ _ _ _ _ HL Hw) as (_ & Hcat & _).
  destruct (split_on_joins_back "010"%char channels) as (Hne & Hjoin & Hparts).
  exists channels. rewrite Hcat. repeat split; try assumption.
  intros ->. cbn in Hcat. now apply Hne.
Qed.

Lemma returned_channels_join_back_witness :
  exists channels,
    dict_get "channels" [("channels", three_channels)] = Some channels
    /\ String.concat nl (["H1:A"; "H1:B"] ++ ["H1:C"])%list = channels.
Proof.
  destruct (returned_channels_join_back digits_float_text plain_repr 5
              [("channels", three_channels)] "cache.lcf" "/run" 2 "v2r1" [] DEFAULTS
              [ ("/run/parameters/parameters_0.txt", ["H1:A"; "H1:B"]);
                ("/run/parameters/parameters_1.txt", ["H1:C"]) ] eq_refl)
    as (channels & Hc & Hj & _).
  exists channels. split; [exact Hc | exact Hj].
Defined.
